(** * Streamyfin: stream-URL resolution and the playback session controller

    A shallow embedding of

    - [utils/jellyfin/media/getStreamUrl.ts]  (module [StreamUrl]),
    - [providers/PlaybackProvider.tsx]        (module [Provider]),
    - the transport handlers of the full-screen video player
      (module [Player]),

    followed by the properties of the playback specification that these
    functions decide.

    Conventions.  A JavaScript value that may be [null] or [undefined] is an
    [option]; the two are not told apart, since the code only tests them for
    truthiness or with optional chaining.  Times, ticks and volumes are
    JavaScript numbers, embedded as binary64 floats ([PrimFloat]); stream
    indices and bit rates are integer-valued numbers, embedded as [Z].
    Console output is not part of the model. *)

From Stdlib Require Import String Ascii List ZArith Bool PrimFloat DecimalString.
From Stdlib Require Import FloatClass SpecFloat FloatAxioms.
Import ListNotations.
Open Scope string_scope.

(* ===================================================================== *)
(** ** JavaScript values *)
(* ===================================================================== *)

Module JS.

(** Truthiness of a string-or-null value: [null], [undefined] and the
    empty string are falsy.  The result carries the string, so a guard
    [if (!x) ...] and the later uses of [x] read as one match. *)
Definition truthy (x : option string) : option string :=
  match x with
  | Some s => if s =? "" then None else Some s
  | None => None
  end.

(** [x === "literal"] for a string-or-null [x]. *)
Definition strictEq (x : option string) (lit : string) : bool :=
  match x with
  | Some s => s =? lit
  | None => false
  end.

(** Truthiness of a boolean-or-undefined value. *)
Definition truthyBool (x : option bool) : bool :=
  match x with
  | Some b => b
  | None => false
  end.

(** Truthiness of an integer-valued number: [undefined] and [0] are falsy. *)
Definition truthyInt (x : option Z) : bool :=
  match x with
  | Some z => negb (z =? 0)%Z
  | None => false
  end.

(** Truthiness of a number-or-null: [null], [0], [-0] and [NaN] are falsy. *)
Definition truthyNumber (x : option float) : bool :=
  match x with
  | Some f => negb (PrimFloat.eqb f 0 || PrimFloat.is_nan f)
  | None => false
  end.

(** [x ? x : d] and [x || d] on numbers. *)
Definition orNumber (x : option float) (d : float) : float :=
  match x with
  | Some f => if truthyNumber x then f else d
  | None => d
  end.

(** A parameter default [x = d]: applies when the argument is undefined. *)
Definition withDefault {A : Type} (x : option A) (d : A) : A :=
  match x with
  | Some v => v
  | None => d
  end.

(** Number-to-string conversion of an integer-valued number. *)
Definition intToString (z : Z) : string :=
  NilZero.string_of_int (Z.to_int z).

(** Interpolation [`${x}`] inside a template literal. *)
Definition tplString (x : option string) : string :=
  match x with
  | Some s => s
  | None => "undefined"
  end.

Definition tplInt (x : option Z) : string :=
  match x with
  | Some z => intToString z
  | None => "undefined"
  end.

(** [whole.includes(part)], as a proposition. *)
Definition includes (part whole : string) : Prop :=
  exists pre post, whole = pre ++ part ++ post.

End JS.

(* ===================================================================== *)
(** ** The SDK's data types, restricted to the fields the code reads *)
(* ===================================================================== *)

Module Api.
Record t := mk {
  basePath : string;
  accessToken : string;
  deviceInfo_id : string   (* api.deviceInfo.id *)
}.
End Api.

Module MediaSourceInfo.
Record t := mk {
  Id : option string;
  SupportsDirectPlay : option bool;
  TranscodingUrl : option string
}.
End MediaSourceInfo.

Module BaseItemDto.
Record t := mk {
  Id : option string;
  MediaType : option string;
  RunTimeTicks : option float;
  PlaybackPositionTicks : option float   (* UserData?.PlaybackPositionTicks *)
}.
End BaseItemDto.

Module PlaybackInfoResponse.
Record t := mk {
  PlaySessionId : option string;
  MediaSources : option (list MediaSourceInfo.t)
}.
End PlaybackInfoResponse.

(* ===================================================================== *)
(** ** getStreamUrl *)
(* ===================================================================== *)

Module StreamUrl.

(** What a call can end in.  [Error_ m] is [throw new Error(m)];
    [TypeError_] is the engine's own error on [undefined.find]; and
    [AxiosError_] is a rejected request. *)
Inductive Thrown :=
| Error_ (message : string)
| TypeError_
| AxiosError_.

Inductive Completion :=
| Return (value : option string)   (* [None] is [return null] *)
| Throw (e : Thrown).

Section GetStreamUrl.

(** The device profile is an opaque object for this function, [ios] is
    the default profile imported from [utils/profiles/ios], and the
    request headers come from [getAuthHeaders]. *)
Variable DeviceProfile : Type.
Variable ios : DeviceProfile.
Variable Headers : Type.
Variable getAuthHeaders : Api.t -> Headers.

(** [new URLSearchParams(obj).toString()]: the platform's serializer of
    an ordered list of name/value pairs. *)
Variable URLSearchParams_toString : list (string * string) -> string.

Record Args := mkArgs {
  api : option Api.t;
  item : option BaseItemDto.t;
  userId : option string;
  startTimeTicks : option Z;
  maxStreamingBitrate : option Z;
  sessionData : PlaybackInfoResponse.t;
  deviceProfile : option DeviceProfile;
  audioStreamIndex : option Z;
  subtitleStreamIndex : option Z;
  forceDirectPlay : option bool;
  height : option Z;
  mediaSourceId : option string
}.

(** The body of the PlaybackInfo request. *)
Record Body := mkBody {
  DeviceProfile_ : DeviceProfile;
  UserId : string;
  MaxStreamingBitrate : option Z;
  StartTimeTicks : Z;
  EnableTranscoding : option bool;
  AutoOpenLiveStream : bool;
  MediaSourceId : string;
  AllowVideoStreamCopy : bool;
  AudioStreamIndex : Z;
  SubtitleStreamIndex : option Z;
  DeInterlace : bool;
  BreakOnNonKeyFrames : bool;
  CopyTimestamps : bool;
  EnableMpegtsM2TsMode : bool
}.

Record Request := mkRequest {
  req_url : string;
  req_body : Body;
  req_headers : Headers
}.

(** The outcome of [api.axiosInstance.post]: rejected, or resolved with
    [response.data.MediaSources]. *)
Inductive AxiosResult :=
| Rejected
| Resolved (MediaSources : option (list MediaSourceInfo.t)).

(** A run of the function: the requests it issued, in order, and how it
    completed. *)
Record Run := mkRun {
  requests : list Request;
  completion : Completion
}.

(** [MediaSources.find((source) => source.Id === mediaSourceId)] *)
Definition findSource (mediaSourceId : string)
  (sources : list MediaSourceInfo.t) : option MediaSourceInfo.t :=
  find (fun source => JS.strictEq (MediaSourceInfo.Id source) mediaSourceId)
       sources.

(** The template literal of the direct static stream, after the base
    path. *)
Definition directVideoPath (itemId : string) (playSessionId : option string)
  (sourceId : option string) (subtitleStreamIndex : option Z)
  (audioStreamIndex : Z) (a : Api.t) : string :=
  "/Videos/" ++ itemId ++ "/stream.mp4?playSessionId="
    ++ JS.tplString playSessionId
    ++ "&mediaSourceId=" ++ JS.tplString sourceId
    ++ "&static=true&subtitleStreamIndex=" ++ JS.tplInt subtitleStreamIndex
    ++ "&audioStreamIndex=" ++ JS.intToString audioStreamIndex
    ++ "&deviceId=" ++ Api.deviceInfo_id a
    ++ "&api_key=" ++ Api.accessToken a.

Definition directVideoUrl (itemId : string) (playSessionId : option string)
  (sourceId : option string) (subtitleStreamIndex : option Z)
  (audioStreamIndex : Z) (a : Api.t) : string :=
  Api.basePath a
    ++ directVideoPath itemId playSessionId sourceId subtitleStreamIndex
         audioStreamIndex a.

Definition universalAudioParams (userId playSessionId : string) (a : Api.t)
  : list (string * string) :=
  [ ("UserId", userId);
    ("DeviceId", Api.deviceInfo_id a);
    ("MaxStreamingBitrate", "140000000");
    ("Container",
     "opus,webm|opus,mp3,aac,m4a|aac,m4b|aac,flac,webma,webm|webma,wav,ogg");
    ("TranscodingContainer", "mp4");
    ("TranscodingProtocol", "hls");
    ("AudioCodec", "aac");
    ("api_key", Api.accessToken a);
    ("PlaySessionId", playSessionId);
    ("StartTimeTicks", "0");
    ("EnableRedirection", "true");
    ("EnableRemoteMedia", "false") ].

Definition universalAudioUrl (itemId userId playSessionId : string)
  (a : Api.t) : string :=
  Api.basePath a ++ "/Audio/" ++ itemId ++ "/universal?"
    ++ URLSearchParams_toString (universalAudioParams userId playSessionId a).

(** Lines 81-108: the assignment to [url]. *)
Definition selectUrl (a : Api.t) (it : BaseItemDto.t)
  (itemId userId playSessionId : string)
  (mediaSource : MediaSourceInfo.t)
  (subtitleStreamIndex : option Z) (audioStreamIndex : Z)
  (forceDirectPlay : bool) : option string :=
  if JS.truthyBool (MediaSourceInfo.SupportsDirectPlay mediaSource)
     || Bool.eqb forceDirectPlay true
  then
    if JS.strictEq (BaseItemDto.MediaType it) "Video" then
      Some (directVideoUrl itemId (Some playSessionId)
              (MediaSourceInfo.Id mediaSource)
              subtitleStreamIndex audioStreamIndex a)
    else if JS.strictEq (BaseItemDto.MediaType it) "Audio" then
      Some (universalAudioUrl itemId userId playSessionId a)
    else None
  else
    match JS.truthy (MediaSourceInfo.TranscodingUrl mediaSource) with
    | Some transcodingUrl => Some (Api.basePath a ++ transcodingUrl)
    | None => None
    end.

Definition playbackInfoRequest (a : Api.t) (itemId userId mediaSourceId : string)
  (args : Args) : Request :=
  {| req_url := Api.basePath a ++ "/Items/" ++ itemId ++ "/PlaybackInfo";
     req_body :=
       {| DeviceProfile_ := JS.withDefault (deviceProfile args) ios;
          UserId := userId;
          MaxStreamingBitrate := maxStreamingBitrate args;
          StartTimeTicks := JS.withDefault (startTimeTicks args) 0%Z;
          EnableTranscoding :=
            if JS.truthyInt (maxStreamingBitrate args) then Some true else None;
          AutoOpenLiveStream := true;
          MediaSourceId := mediaSourceId;
          AllowVideoStreamCopy :=
            if JS.truthyInt (maxStreamingBitrate args) then false else true;
          AudioStreamIndex := JS.withDefault (audioStreamIndex args) 0%Z;
          SubtitleStreamIndex := subtitleStreamIndex args;
          DeInterlace := true;
          BreakOnNonKeyFrames := false;
          CopyTimestamps := false;
          EnableMpegtsM2TsMode := false |};
     req_headers := getAuthHeaders a |}.

(** [item?.Id] *)
Definition itemId_of (it : option BaseItemDto.t) : option string :=
  match it with
  | Some i => BaseItemDto.Id i
  | None => None
  end.

(** The function itself.  [response] is what the server answers to the
    PlaybackInfo request, should the function issue it. *)
Definition getStreamUrl (args : Args) (response : AxiosResult) : Run :=
  match api args, JS.truthy (userId args), item args,
        JS.truthy (itemId_of (item args)), JS.truthy (mediaSourceId args) with
  | Some a, Some userId, Some it, Some itemId, Some mediaSourceId =>
      let request := playbackInfoRequest a itemId userId mediaSourceId args in
      mkRun [request]
        match response with
        | Rejected => Throw AxiosError_
        | Resolved None => Throw TypeError_
        | Resolved (Some sources) =>
            match findSource mediaSourceId sources with
            | None => Throw (Error_ "No media source")
            | Some mediaSource =>
                match JS.truthy (PlaybackInfoResponse.PlaySessionId
                                   (sessionData args)) with
                | None => Throw (Error_ "no PlaySessionId")
                | Some playSessionId =>
                    match JS.truthy
                            (selectUrl a it itemId userId playSessionId
                               mediaSource (subtitleStreamIndex args)
                               (JS.withDefault (audioStreamIndex args) 0%Z)
                               (JS.withDefault (forceDirectPlay args) false))
                    with
                    | None => Throw (Error_ "No url")
                    | Some url => Return (Some url)
                    end
                end
            end
        end
  | _, _, _, _, _ => mkRun [] (Return None)
  end.

(** The guard of line 37 lets the call through, binding the values the
    rest of the function uses. *)
Definition pastGuard (args : Args) (a : Api.t) (user : string)
  (it : BaseItemDto.t) (itemId sourceId : string) : Prop :=
  api args = Some a
  /\ JS.truthy (userId args) = Some user
  /\ item args = Some it
  /\ JS.truthy (BaseItemDto.Id it) = Some itemId
  /\ JS.truthy (mediaSourceId args) = Some sourceId.

(** The test of line 83: the source supports direct play, or the caller
    forces it. *)
Definition directPlay (args : Args) (mediaSource : MediaSourceInfo.t) : Prop :=
  MediaSourceInfo.SupportsDirectPlay mediaSource = Some true
  \/ forceDirectPlay args = Some true.

End GetStreamUrl.

Arguments mkArgs {DeviceProfile}.
Arguments api {DeviceProfile}.
Arguments item {DeviceProfile}.
Arguments userId {DeviceProfile}.
Arguments sessionData {DeviceProfile}.
Arguments audioStreamIndex {DeviceProfile}.
Arguments subtitleStreamIndex {DeviceProfile}.
Arguments forceDirectPlay {DeviceProfile}.
Arguments mediaSourceId {DeviceProfile}.
Arguments pastGuard {DeviceProfile}.
Arguments directPlay {DeviceProfile}.
Arguments requests {DeviceProfile Headers}.
Arguments completion {DeviceProfile Headers}.

End StreamUrl.

(* ===================================================================== *)
(** ** Event handlers: state, effects and their sequencing *)
(* ===================================================================== *)

Module Handler.

(** A handler runs against a mutable store [S], returns a value and leaves a
    trace of the outside calls it made, in order. *)
Definition M (E S A : Type) : Type := S -> A * S * list E.

Definition ret {E S A : Type} (a : A) : M E S A := fun s => (a, s, []).

Definition bind {E S A B : Type} (m : M E S A) (k : A -> M E S B) : M E S B :=
  fun s =>
    let '(a, s1, t1) := m s in
    let '(b, s2, t2) := k a s1 in
    (b, s2, (t1 ++ t2)%list).

Definition get {E S : Type} : M E S S := fun s => (s, s, []).

Definition modify {E S : Type} (f : S -> S) : M E S unit := fun s => (tt, f s, []).

Definition emit {E S : Type} (e : E) : M E S unit := fun s => (tt, s, [e]).

(** Run a handler of a component inside a larger store. *)
Definition zoom {E S T A : Type} (proj : T -> S) (inj : S -> T -> T)
  (m : M E S A) : M E T A :=
  fun t => let '(a, s, tr) := m (proj t) in (a, inj s t, tr).

Definition store {E S A : Type} (r : A * S * list E) : S := snd (fst r).
Definition trace {E S A : Type} (r : A * S * list E) : list E := snd r.

End Handler.

Declare Scope handler_scope.
Delimit Scope handler_scope with handler.
Notation "x <- c ;; k" := (Handler.bind c (fun x => k))
  (at level 61, c at next level, right associativity) : handler_scope.
Notation "c ;; k" := (Handler.bind c (fun _ => k))
  (at level 61, right associativity) : handler_scope.

(* ===================================================================== *)
(** ** PlaybackProvider *)
(* ===================================================================== *)

Module Provider.

Import Handler.
Local Open Scope handler_scope.

Record CurrentlyPlayingState := mkCurrentlyPlaying {
  url : string;
  item : BaseItemDto.t
}.

(** The player's progress event. *)
Record OnProgressData := mkOnProgressData {
  currentTime : float;
  playableDuration : float;
  seekableDuration : float
}.

(** The arguments of the two reporting helpers of [utils/jellyfin/playstate]. *)
Module ProgressReport.
Record t := mk {
  api : option Api.t;
  itemId : option string;
  positionTicks : float;
  sessionId : option string;
  IsPaused : bool
}.
End ProgressReport.

Module StopReport.
Record t := mk {
  api : option Api.t;
  itemId : option string;
  sessionId : option string;
  positionTicks : float
}.
End StopReport.

(** The calls the provider makes to the outside: the reporting helpers, the
    SDK, the video element behind [videoRef], the router and the alert box.
    The bodies of [reportPlaybackProgress] and [reportPlaybackStopped] are
    not part of the provider; what the provider does is call them, and the
    call, with its arguments, is what a trace records as a report. *)
Inductive Effect :=
| reportPlaybackProgress (r : ProgressReport.t)
| reportPlaybackStopped (r : StopReport.t)
| getPlaybackInfo (itemId userId : string)
| postCapabilities (itemId : string) (sessionId : option string)
| Linking_openURL (url : string)
| Alert_alert (title body : option string)
| Alert_couldNotBePlayed (state : option CurrentlyPlayingState)
| videoRef_resume
| videoRef_pause
| videoRef_setVolume (volume : float)
| videoRef_seek (seconds : float)
| router_back.

(** The values held by [useState]. *)
Module State.
Record t := mk {
  isPlaying : bool;
  isBuffering : bool;
  isFullscreen : bool;
  progressTicks : option float;
  volume : option float;
  session : option PlaybackInfoResponse.t;
  currentlyPlaying : option CurrentlyPlayingState
}.

(** The initial values given to [useState]. *)
Definition initial : t := mk false false false (Some 0%float) None None None.

Definition set_isPlaying (v : bool) (s : t) : t :=
  mk v (isBuffering s) (isFullscreen s) (progressTicks s) (volume s)
     (session s) (currentlyPlaying s).
Definition set_isBuffering (v : bool) (s : t) : t :=
  mk (isPlaying s) v (isFullscreen s) (progressTicks s) (volume s)
     (session s) (currentlyPlaying s).
Definition set_isFullscreen (v : bool) (s : t) : t :=
  mk (isPlaying s) (isBuffering s) v (progressTicks s) (volume s)
     (session s) (currentlyPlaying s).
Definition set_progressTicks (v : option float) (s : t) : t :=
  mk (isPlaying s) (isBuffering s) (isFullscreen s) v (volume s)
     (session s) (currentlyPlaying s).
Definition set_volume (v : option float) (s : t) : t :=
  mk (isPlaying s) (isBuffering s) (isFullscreen s) (progressTicks s) v
     (session s) (currentlyPlaying s).
Definition set_session (v : option PlaybackInfoResponse.t) (s : t) : t :=
  mk (isPlaying s) (isBuffering s) (isFullscreen s) (progressTicks s) (volume s)
     v (currentlyPlaying s).
Definition set_currentlyPlaying (v : option CurrentlyPlayingState) (s : t) : t :=
  mk (isPlaying s) (isBuffering s) (isFullscreen s) (progressTicks s) (volume s)
     (session s) v.
End State.

(** Everything a handler can read live or change: the React state, the two
    refs, the calls parked in the two debounced wrappers, and the outside
    world as far as the handlers consult it (the router's history and the
    server's answers to the two session requests). *)
Record World := mkWorld {
  state : State.t;
  previousVolume : option float;          (* previousVolume.current *)
  videoRef : bool;                        (* videoRef.current is not null *)
  setIsPlaying_pending : option bool;
  onProgress_pending : option OnProgressData;
  router_canGoBack : bool;
  server_playbackInfo : string -> string -> option PlaybackInfoResponse.t;
  server_capabilities : bool
}.

Definition with_state (f : State.t -> State.t) (w : World) : World :=
  mkWorld (f (state w)) (previousVolume w) (videoRef w)
    (setIsPlaying_pending w) (onProgress_pending w) (router_canGoBack w)
    (server_playbackInfo w) (server_capabilities w).
Definition with_previousVolume (v : option float) (w : World) : World :=
  mkWorld (state w) v (videoRef w)
    (setIsPlaying_pending w) (onProgress_pending w) (router_canGoBack w)
    (server_playbackInfo w) (server_capabilities w).
Definition with_setIsPlaying_pending (v : option bool) (w : World) : World :=
  mkWorld (state w) (previousVolume w) (videoRef w)
    v (onProgress_pending w) (router_canGoBack w)
    (server_playbackInfo w) (server_capabilities w).
Definition with_onProgress_pending (v : option OnProgressData) (w : World) : World :=
  mkWorld (state w) (previousVolume w) (videoRef w)
    (setIsPlaying_pending w) v (router_canGoBack w)
    (server_playbackInfo w) (server_capabilities w).

(** What the callbacks of one render have captured: the atoms and settings
    and the state values of that render.  A callback reads its closure, and
    writes to the world. *)
Record Closure := mkClosure {
  api : option Api.t;
  user_Id : option string;                (* user?.Id *)
  settings_openInVLC : bool;              (* settings?.openInVLC, as a test *)
  rendered : State.t
}.

(** The closure of a render of world [w]. *)
Definition render (api : option Api.t) (user_Id : option string)
  (openInVLC : bool) (w : World) : Closure :=
  mkClosure api user_Id openInVLC (state w).

Definition H := M Effect World.

(** [currentlyPlaying?.item.Id] and [session?.PlaySessionId] *)
Definition item_Id (p : option CurrentlyPlayingState) : option string :=
  match p with
  | Some s => BaseItemDto.Id (item s)
  | None => None
  end.

Definition session_PlaySessionId (s : option PlaybackInfoResponse.t)
  : option string :=
  match s with
  | Some r => PlaybackInfoResponse.PlaySessionId r
  | None => None
  end.

(** [!x] on a string-or-null. *)
Definition not_ (x : option string) : bool :=
  match JS.truthy x with
  | Some _ => false
  | None => true
  end.

(** The state setters. *)
Definition _setIsPlaying (v : bool) : H unit :=
  modify (with_state (State.set_isPlaying v)).
Definition setIsBuffering (v : bool) : H unit :=
  modify (with_state (State.set_isBuffering v)).
Definition setIsFullscreen (v : bool) : H unit :=
  modify (with_state (State.set_isFullscreen v)).
Definition setProgressTicks (v : option float) : H unit :=
  modify (with_state (State.set_progressTicks v)).
Definition _setVolume (v : option float) : H unit :=
  modify (with_state (State.set_volume v)).
Definition setSession (v : option PlaybackInfoResponse.t) : H unit :=
  modify (with_state (State.set_session v)).
Definition setCurrentlyPlaying (v : option CurrentlyPlayingState) : H unit :=
  modify (with_state (State.set_currentlyPlaying v)).

(** [videoRef.current?.method(...)] *)
Definition videoRef_current (call : Effect) : H unit :=
  w <- get ;; if videoRef w then emit call else ret tt.

(** [setIsPlaying] is [_setIsPlaying] behind a 500 ms trailing debounce: a
    call parks its argument, replacing the one parked before; when the timer
    runs out the parked call is made. *)
Definition setIsPlaying (value : bool) : H unit :=
  modify (with_setIsPlaying_pending (Some value)).

Definition setIsPlaying_timeout : H unit :=
  w <- get ;;
  match setIsPlaying_pending w with
  | Some value => modify (with_setIsPlaying_pending None) ;; _setIsPlaying value
  | None => ret tt
  end.

(** [useState<number | null>(null)] *)
Definition initial_volume : option float := None.

(** [setVolume] is memoized on [[_setVolume]], a setter that never changes,
    so the callback made by the first render is the one every caller gets,
    and the [volume] it reads is the first render's. *)
Definition setVolume (newVolume : float) : H unit :=
  modify (with_previousVolume initial_volume) ;;
  _setVolume (Some newVolume) ;;
  videoRef_current (videoRef_setVolume newVolume).

Definition startDownloadedFilePlayback (state : option CurrentlyPlayingState)
  : H unit :=
  match state with
  | None => setCurrentlyPlaying None ;; setIsPlaying false
  | Some _ => setCurrentlyPlaying state ;; setIsPlaying true
  end.

(** The [try] block awaits two requests; the world answers them.  A failed
    request, or a null [api], lands in the [catch]. *)
Definition setCurrentlyPlayingState (c : Closure)
  (state : option CurrentlyPlayingState) : H unit :=
  match state, JS.truthy (item_Id state), JS.truthy (user_Id c) with
  | Some st, Some itemId, Some userId =>
      if settings_openInVLC c then
        emit (Linking_openURL ("vlc://" ++ url st))
      else
        match api c with
        | None => emit (Alert_couldNotBePlayed state)
        | Some _ =>
            emit (getPlaybackInfo itemId userId) ;;
            w <- get ;;
            match server_playbackInfo w itemId userId with
            | None => emit (Alert_couldNotBePlayed state)
            | Some res =>
                emit (postCapabilities itemId
                        (PlaybackInfoResponse.PlaySessionId res)) ;;
                if server_capabilities w then
                  setSession (Some res) ;;
                  setCurrentlyPlaying state ;;
                  setIsPlaying true
                else emit (Alert_couldNotBePlayed state)
            end
        end
  | _, _, _ =>
      setCurrentlyPlaying None ;;
      setIsFullscreen false ;;
      setIsPlaying false
  end.

(** The "Try force play" button of the alert. *)
Definition tryForcePlay_onPress (state : option CurrentlyPlayingState) : H unit :=
  setCurrentlyPlaying state ;; setIsPlaying true.

Definition playVideo (c : Closure) (triggerRef : bool) : H unit :=
  (if Bool.eqb triggerRef true then videoRef_current videoRef_resume else ret tt) ;;
  _setIsPlaying true ;;
  emit (reportPlaybackProgress
          {| ProgressReport.api := api c;
             ProgressReport.itemId := item_Id (State.currentlyPlaying (rendered c));
             ProgressReport.positionTicks :=
               JS.orNumber (State.progressTicks (rendered c)) 0;
             ProgressReport.sessionId :=
               session_PlaySessionId (State.session (rendered c));
             ProgressReport.IsPaused := false |}).

Definition pauseVideo (c : Closure) (triggerRef : bool) : H unit :=
  (if Bool.eqb triggerRef true then videoRef_current videoRef_pause else ret tt) ;;
  _setIsPlaying false ;;
  emit (reportPlaybackProgress
          {| ProgressReport.api := api c;
             ProgressReport.itemId := item_Id (State.currentlyPlaying (rendered c));
             ProgressReport.positionTicks :=
               JS.orNumber (State.progressTicks (rendered c)) 0;
             ProgressReport.sessionId :=
               session_PlaySessionId (State.session (rendered c));
             ProgressReport.IsPaused := true |}).

Definition stopPlayback (c : Closure) : H unit :=
  let id := item_Id (State.currentlyPlaying (rendered c)) in
  setCurrentlyPlayingState c None ;;
  emit (reportPlaybackStopped
          {| StopReport.api := api c;
             StopReport.itemId := id;
             StopReport.sessionId :=
               session_PlaySessionId (State.session (rendered c));
             StopReport.positionTicks :=
               JS.orNumber (State.progressTicks (rendered c)) 0 |}).

Definition _onProgress (c : Closure) (data : OnProgressData) : H unit :=
  if not_ (session_PlaySessionId (State.session (rendered c)))
     || not_ (item_Id (State.currentlyPlaying (rendered c)))
     || PrimFloat.eqb (currentTime data) 0
  then ret tt
  else
    let ticks := (currentTime data * 10000000)%float in
    setProgressTicks (Some ticks) ;;
    emit (reportPlaybackProgress
            {| ProgressReport.api := api c;
               ProgressReport.itemId :=
                 item_Id (State.currentlyPlaying (rendered c));
               ProgressReport.positionTicks := ticks;
               ProgressReport.sessionId :=
                 session_PlaySessionId (State.session (rendered c));
               ProgressReport.IsPaused := negb (State.isPlaying (rendered c)) |}).

(** [onProgress] is [_onProgress] behind the same kind of debounce.  The
    parked call runs the [_onProgress] of the render that made the wrapper. *)
Definition onProgress (e : OnProgressData) : H unit :=
  modify (with_onProgress_pending (Some e)).

Definition onProgress_timeout (c : Closure) : H unit :=
  w <- get ;;
  match onProgress_pending w with
  | Some e => modify (with_onProgress_pending None) ;; _onProgress c e
  | None => ret tt
  end.

(** A parsed socket message, as far as the handler looks into it:
    [json?.Data?.Command], [json?.Data?.Name] and the two arguments of a
    display message. *)
Record Message := mkMessage {
  Command : option string;
  Name : option string;
  Arguments_Header : option string;
  Arguments_Text : option string
}.

(** [ws.onmessage].  The closure is that of the render which installed the
    handler. *)
Definition onmessage (c : Closure) (json : Message) : H unit :=
  let command := Command json in
  if JS.strictEq command "PlayPause" then
    if State.isPlaying (rendered c) then pauseVideo c true else playVideo c true
  else if JS.strictEq command "Stop" then
    stopPlayback c ;;
    w <- get ;;
    if router_canGoBack w then emit router_back else ret tt
  else if JS.strictEq command "Mute" then
    setVolume 0
  else if JS.strictEq command "Unmute" then
    w <- get ;;
    setVolume (JS.orNumber (previousVolume w) 20)
  else if JS.strictEq command "SetVolume" then
    ret tt
  else if JS.strictEq (Name json) "DisplayMessage" then
    emit (Alert_alert (Arguments_Header json) (Arguments_Text json))
  else ret tt.

(** The effect that installs [ws.onmessage] lists [ws], [stopPlayback],
    [playVideo] and [pauseVideo] as dependencies, and these callbacks are
    memoized on [api], the current item id, the play-session id and
    [progressTicks].  So after a render the installed handler is replaced
    only if [ws] or one of those values differs from the previous render
    ([Object.is]); [isPlaying] is not among them.  Objects are compared by
    identity, which a closure does not hold: whether [ws] and [api] are the
    objects of the previous render is told by the caller, and an [api] with
    other contents is another object in any case. *)
Definition sameString (x y : option string) : bool :=
  match x, y with
  | Some a, Some b => a =? b
  | None, None => true
  | _, _ => false
  end.

Definition sameNumber (x y : option float) : bool :=
  match x, y with
  | Some a, Some b => PrimFloat.Leibniz.eqb a b
  | None, None => true
  | _, _ => false
  end.

Definition sameApi (x y : option Api.t) : bool :=
  match x, y with
  | Some a, Some b =>
      (Api.basePath a =? Api.basePath b)
      && (Api.accessToken a =? Api.accessToken b)
      && (Api.deviceInfo_id a =? Api.deviceInfo_id b)
  | None, None => true
  | _, _ => false
  end.

Definition sameCallbacks (previous current : Closure) : bool :=
  sameApi (api previous) (api current)
  && sameString (item_Id (State.currentlyPlaying (rendered previous)))
                (item_Id (State.currentlyPlaying (rendered current)))
  && sameString (session_PlaySessionId (State.session (rendered previous)))
                (session_PlaySessionId (State.session (rendered current)))
  && sameNumber (State.progressTicks (rendered previous))
                (State.progressTicks (rendered current)).

(** The closure of the handler in force after a render, given the closure
    of the handler installed before it and the closure of the previous
    render.  [sameObjects] is false when the socket effect has made a new
    [ws] (after a change of [api], [deviceId] or [user]) or [api] is a new
    object. *)
Definition onmessage_after_render (sameObjects : bool)
  (installed previous current : Closure) : Closure :=
  if sameObjects && sameCallbacks previous current then installed else current.

(** What the dependencies keep equal between the render that installed a
    handler and the current one: everything [stopPlayback], [playVideo] and
    [pauseVideo] read. *)
Definition upToDate (installed current : Closure) : Prop :=
  api installed = api current
  /\ item_Id (State.currentlyPlaying (rendered installed))
     = item_Id (State.currentlyPlaying (rendered current))
  /\ session_PlaySessionId (State.session (rendered installed))
     = session_PlaySessionId (State.session (rendered current))
  /\ State.progressTicks (rendered installed)
     = State.progressTicks (rendered current).

End Provider.

(* ===================================================================== *)
(** ** The full-screen player's transport handlers *)
(* ===================================================================== *)

Module Player.

Import Handler.
Local Open Scope handler_scope.

(** The shared values and local state the handlers touch. *)
Record State := mkState {
  isSeeking : bool;
  progress : float;
  cacheProgress : float;
  max : float;
  isBuffering : bool          (* the component's own flag *)
}.

(** The component together with the provider it is mounted under. *)
Record App := mkApp {
  provider : Provider.World;
  player : State
}.

Definition H := M Provider.Effect App.

Definition with_player (f : State -> State) (a : App) : App :=
  mkApp (provider a) (f (player a)).

(** A provider action, called through [usePlayback()]. *)
Definition usePlayback {A : Type} (m : Provider.H A) : H A :=
  zoom provider (fun w a => mkApp w (player a)) m.

Definition set_isSeeking (v : bool) : H unit :=
  modify (with_player (fun p =>
    mkState v (progress p) (cacheProgress p) (max p) (isBuffering p))).
Definition set_progress (v : float) : H unit :=
  modify (with_player (fun p =>
    mkState (isSeeking p) v (cacheProgress p) (max p) (isBuffering p))).
Definition set_cacheProgress (v : float) : H unit :=
  modify (with_player (fun p =>
    mkState (isSeeking p) (progress p) v (max p) (isBuffering p))).
Definition setIsBufferingState (v : bool) : H unit :=
  modify (with_player (fun p =>
    mkState (isSeeking p) (progress p) (cacheProgress p) (max p) v)).

Section Handlers.

(** [secondsToTicks] of [utils/secondsToTicks]. *)
Variable secondsToTicks : float -> float.

Definition handleVideoProgress (data : Provider.OnProgressData) : H unit :=
  a <- get ;;
  if Bool.eqb (isSeeking (player a)) true then ret tt
  else
    set_progress (secondsToTicks (Provider.currentTime data)) ;;
    set_cacheProgress (secondsToTicks (Provider.playableDuration data)) ;;
    setIsBufferingState (PrimFloat.eqb (Provider.playableDuration data) 0) ;;
    usePlayback (Provider.setIsBuffering
                   (PrimFloat.eqb (Provider.playableDuration data) 0)) ;;
    usePlayback (Provider.onProgress data).

End Handlers.

Definition handlePlayPause (c : Provider.Closure) : H unit :=
  if Provider.State.isPlaying (Provider.rendered c)
  then usePlayback (Provider.pauseVideo c true)
  else usePlayback (Provider.playVideo c true).

Definition handleSliderComplete (value : float) : H unit :=
  set_progress value ;;
  set_isSeeking false ;;
  usePlayback (Provider.videoRef_current
                 (Provider.videoRef_seek (value / 10000000)%float)).

(** [useState(true)] *)
Definition initial_showControls : bool := true.

(** [handleSliderStart] is memoized on no dependency: the [showControls] it
    tests is the first render's. *)
Definition handleSliderStart : H unit :=
  if Bool.eqb initial_showControls false then ret tt
  else set_isSeeking true.

End Player.

(* ===================================================================== *)
(** ** A concrete platform, to run the functions on examples *)
(* ===================================================================== *)

Module Platform.

(** The application/x-www-form-urlencoded serializer, which
    [URLSearchParams.prototype.toString] follows: letters, digits and
    [* - . _] stay, a space becomes [+], any other byte is percent-encoded. *)
Definition hexDigit (n : N) : ascii :=
  match String.get (N.to_nat n) "0123456789ABCDEF" with
  | Some c => c
  | None => "0"%char
  end.

Definition isUnreserved (c : ascii) : bool :=
  let n := N_of_ascii c in
  ((48 <=? n) && (n <=? 57) || (65 <=? n) && (n <=? 90)
   || (97 <=? n) && (n <=? 122)
   || (n =? 42) || (n =? 45) || (n =? 46) || (n =? 95))%N.

Definition encodeByte (c : ascii) : string :=
  if isUnreserved c then String c ""
  else if (N_of_ascii c =? 32)%N then "+"
  else String "%" (String (hexDigit (N_of_ascii c / 16))
                     (String (hexDigit (N_of_ascii c mod 16)) "")).

Fixpoint urlencoded (s : string) : string :=
  match s with
  | EmptyString => ""
  | String c rest => encodeByte c ++ urlencoded rest
  end.

Definition URLSearchParams_toString (params : list (string * string)) : string :=
  String.concat "&"
    (map (fun p => urlencoded (fst p) ++ "=" ++ urlencoded (snd p)) params).

(** Headers as name/value pairs, and a stand-in for [getAuthHeaders] that
    sends the access token under one name. *)
Definition Headers : Type := list (string * string).
Definition getAuthHeaders (a : Api.t) : Headers :=
  [("Authorization", Api.accessToken a)].

(** A device profile stands for itself. *)
Definition DeviceProfile : Type := string.
Definition ios : DeviceProfile := "ios".

Definition getStreamUrl :=
  StreamUrl.getStreamUrl DeviceProfile ios Headers getAuthHeaders
    URLSearchParams_toString.

(** A server, an item of each kind and a session to run examples on. *)
Definition api0 : Api.t := Api.mk "http://srv" "tok" "dev".
Definition video1 : BaseItemDto.t :=
  BaseItemDto.mk (Some "1") (Some "Video") None None.
Definition audio1 : BaseItemDto.t :=
  BaseItemDto.mk (Some "1") (Some "Audio") None None.
Definition book1 : BaseItemDto.t :=
  BaseItemDto.mk (Some "1") (Some "Book") None None.
Definition session0 : PlaybackInfoResponse.t :=
  PlaybackInfoResponse.mk (Some "sess") None.
Definition noSession : PlaybackInfoResponse.t :=
  PlaybackInfoResponse.mk None None.

(** A call with every optional argument left out. *)
Definition call (it : BaseItemDto.t) (sessionData : PlaybackInfoResponse.t)
  (forceDirectPlay : option bool) : StreamUrl.Args DeviceProfile :=
  StreamUrl.mkArgs (Some api0) (Some it) (Some "user") None None sessionData
    None None None forceDirectPlay None (Some "src1").

(** Media sources the server may answer with for ["src1"]. *)
Definition transcodeOnly : MediaSourceInfo.t :=
  MediaSourceInfo.mk (Some "src1") (Some false) (Some "/videos/1/master.m3u8").
Definition directToo : MediaSourceInfo.t :=
  MediaSourceInfo.mk (Some "src1") (Some true) (Some "/videos/1/master.m3u8").
Definition directOnly : MediaSourceInfo.t :=
  MediaSourceInfo.mk (Some "src1") (Some true) None.
Definition templateAsTranscode : MediaSourceInfo.t :=
  MediaSourceInfo.mk (Some "src1") (Some false)
    (Some ("/Videos/1/stream.mp4?playSessionId=sess&mediaSourceId=src1"
           ++ "&static=true&subtitleStreamIndex=undefined&audioStreamIndex=0"
           ++ "&deviceId=dev&api_key=tok")).

(** A provider world before anything was played, with the video element
    mounted and a server that answers every session request. *)
Definition idle : Provider.World :=
  Provider.mkWorld Provider.State.initial None true None None true
    (fun _ _ => Some session0) true.

(** The same world while [video1] plays at 90 s. *)
Definition playing : Provider.World :=
  Provider.with_state
    (fun _ =>
       Provider.State.mk true false true (Some 900000000%float) None
         (Some session0)
         (Some (Provider.mkCurrentlyPlaying "http://srv/stream" video1)))
    idle.

(** The closure of the current render, for a signed-in user. *)
Definition closure (w : Provider.World) : Provider.Closure :=
  Provider.render (Some api0) (Some "user") false w.

Definition command (name : string) : Provider.Message :=
  Provider.mkMessage (Some name) None None None.

End Platform.

(* ===================================================================== *)
(** ** String methods *)
(* ===================================================================== *)

Module JSString.

(** [s.includes(searchString)] *)
Fixpoint includes (searchString s : string) : bool :=
  prefix searchString s
  || match s with
     | EmptyString => false
     | String _ rest => includes searchString rest
     end.

(** [s.slice(n)] for a non-negative [n]. *)
Fixpoint slice (n : nat) (s : string) : string :=
  match n, s with
  | O, _ => s
  | S m, String _ rest => slice m rest
  | S _, EmptyString => EmptyString
  end.

(** [s.replace(pattern, replacement)] with a string pattern: the first
    occurrence is replaced, the rest of the string stays.  The replacement
    holds no [$] pattern where the code calls it. *)
Fixpoint replace (pattern replacement s : string) : string :=
  if prefix pattern s then replacement ++ slice (String.length pattern) s
  else match s with
       | EmptyString => EmptyString
       | String c rest => String c (replace pattern replacement rest)
       end.

End JSString.

(* ===================================================================== *)
(** ** PlaybackProvider: the remote-control socket *)
(* ===================================================================== *)

Module Socket.

(** Lines 270-276: the address the socket is opened on. *)
Definition protocol (a : Api.t) : string :=
  if JSString.includes "https" (Api.basePath a) then "wss" else "ws".

Definition url (a : Api.t) (deviceId : string) : string :=
  protocol a ++ "://"
    ++ JSString.replace "http://" ""
         (JSString.replace "https://" "" (Api.basePath a))
    ++ "/socket?api_key=" ++ Api.accessToken a
    ++ "&deviceId=" ++ deviceId.

(** Line 268 and 278: the effect opens a socket, or returns before it does.
    [None] is the early return, [Some u] is [new WebSocket(u)]. *)
Definition connect (deviceId : option string) (api : option Api.t)
  : option string :=
  match JS.truthy deviceId, api with
  | Some d, Some a =>
      match JS.truthy (Some (Api.accessToken a)) with
      | Some _ => Some (url a d)
      | None => None
      end
  | _, _ => None
  end.

(** The socket's [readyState]. *)
Inductive ReadyState := CONNECTING | OPEN | CLOSING | CLOSED.

(** What the effect's callbacks read and write: the provider's
    [isConnected], the local [keepAliveInterval] (set or null), whether the
    timer behind it still runs, and the socket's [readyState]. *)
Record Connection := mkConnection {
  isConnected : bool;
  keepAliveInterval : bool;
  timerRuns : bool;
  readyState : ReadyState
}.

(** After [new WebSocket(url)]; [isConnected] is what the provider held. *)
Definition opening (isConnected : bool) : Connection :=
  mkConnection isConnected false false CONNECTING.

(** The one frame the code sends: [{ MessageType: "KeepAlive" }]. *)
Inductive Sent := KeepAlive.

Definition isOpen (r : ReadyState) : bool :=
  match r with
  | OPEN => true
  | _ => false
  end.

(** The callbacks, lines 282-310. *)
Definition onopen (s : Connection) : Connection :=
  mkConnection true true true (readyState s).

Definition keepAlive (s : Connection) : list Sent :=
  if isOpen (readyState s) then [KeepAlive] else [].

Definition onerror (s : Connection) : Connection :=
  mkConnection false (keepAliveInterval s) (timerRuns s) (readyState s).

Definition clearKeepAlive (s : Connection) : Connection :=
  if keepAliveInterval s
  then mkConnection (isConnected s) (keepAliveInterval s) false (readyState s)
  else s.

Definition onclose (s : Connection) : Connection := clearKeepAlive s.

(** The effect's cleanup: clear the timer, then [newWebSocket.close()],
    which leaves a socket that is not yet closed in [CLOSING]. *)
Definition cleanup (s : Connection) : Connection :=
  let s1 := clearKeepAlive s in
  mkConnection (isConnected s1) (keepAliveInterval s1) (timerRuns s1)
    match readyState s1 with
    | CLOSED => CLOSED
    | _ => CLOSING
    end.

(** What can happen to an open effect: the socket opens (only while it is
    connecting), fails, or closes; the 30 s timer fires (only while it runs);
    the effect is torn down. *)
Inductive Event := Opened | Failed | Closed | Tick | TornDown.

Definition deliver (s : Connection) (e : Event) : Connection * list Sent :=
  match e with
  | Opened =>
      match readyState s with
      | CONNECTING =>
          (onopen (mkConnection (isConnected s) (keepAliveInterval s)
                     (timerRuns s) OPEN), [])
      | _ => (s, [])
      end
  | Failed => (onerror s, [])
  | Closed =>
      (onclose (mkConnection (isConnected s) (keepAliveInterval s)
                  (timerRuns s) CLOSED), [])
  | Tick => if timerRuns s then (s, keepAlive s) else (s, [])
  | TornDown => (cleanup s, [])
  end.

Fixpoint run (s : Connection) (events : list Event)
  : Connection * list Sent :=
  match events with
  | [] => (s, [])
  | e :: rest =>
      let '(s1, sent1) := deliver s e in
      let '(s2, sent2) := run s1 rest in
      (s2, (sent1 ++ sent2)%list)
  end.

(** What holds of a connection all along: a timer that runs was set by
    [onopen], and then the socket is past connecting. *)
Definition timer_set (s : Connection) : Prop :=
  (timerRuns s = true -> keepAliveInterval s = true)
  /\ (keepAliveInterval s = true -> readyState s <> CONNECTING).

End Socket.

(* ===================================================================== *)
(** ** The rest of the provider and of the player *)
(* ===================================================================== *)

Module Ui.

Import Handler.
Local Open Scope handler_scope.

(** The outside calls of the handlers below: those of the provider, and
    the ones only these handlers make. *)
Inductive Effect :=
| provider (e : Provider.Effect)
| videoRef_presentFullscreenPlayer
| videoRef_dismissFullscreenPlayer
| writeToLog (level message : string)
| router_push (url : string)
| Alert_holdOn.     (* "Hold on!", with the buttons "Cancel" and "Yes" *)

(** A handler of the provider or of the player, run among these. *)
Definition fromProvider {S A : Type} (m : M Provider.Effect S A)
  : M Effect S A :=
  fun s => let '(a, s1, t) := m s in (a, s1, map provider t).

(** PlaybackProvider.tsx, lines 257-265. *)
Definition presentFullscreenPlayer : M Effect Provider.World unit :=
  w <- get ;;
  (if Provider.videoRef w then emit videoRef_presentFullscreenPlayer
   else ret tt) ;;
  fromProvider (Provider.setIsFullscreen true).

Definition dismissFullscreenPlayer : M Effect Provider.World unit :=
  w <- get ;;
  (if Provider.videoRef w then emit videoRef_dismissFullscreenPlayer
   else ret tt) ;;
  fromProvider (Provider.setIsFullscreen false).

(** Everything that can happen to a mounted provider: a call of one of the
    actions it hands out through its context, a socket message, one of the
    two debounce timers running out, the alert's "Try force play" button, and
    the video element attaching to or leaving [videoRef]. *)
Inductive Event :=
| SetVolume (volume : float)
| Message (json : Provider.Message)
| PlayVideo (triggerRef : bool)
| PauseVideo (triggerRef : bool)
| StopPlayback
| SetIsPlaying (value : bool)
| SetIsPlayingTimeout
| SetIsBuffering (value : bool)
| SetIsFullscreen (value : bool)
| OnProgress (data : Provider.OnProgressData)
| OnProgressTimeout
| SetCurrentlyPlayingState (state : option Provider.CurrentlyPlayingState)
| TryForcePlay (state : option Provider.CurrentlyPlayingState)
| StartDownloadedFilePlayback (state : option Provider.CurrentlyPlayingState)
| PresentFullscreenPlayer
| DismissFullscreenPlayer
| VideoRef (attached : bool).

Definition set_videoRef (attached : bool) (w : Provider.World)
  : Provider.World :=
  Provider.mkWorld (Provider.state w) (Provider.previousVolume w) attached
    (Provider.setIsPlaying_pending w) (Provider.onProgress_pending w)
    (Provider.router_canGoBack w) (Provider.server_playbackInfo w)
    (Provider.server_capabilities w).

(** The handler an event runs; [c] is the closure the handler has. *)
Definition handle (c : Provider.Closure) (e : Event)
  : M Effect Provider.World unit :=
  match e with
  | SetVolume v => fromProvider (Provider.setVolume v)
  | Message json => fromProvider (Provider.onmessage c json)
  | PlayVideo t => fromProvider (Provider.playVideo c t)
  | PauseVideo t => fromProvider (Provider.pauseVideo c t)
  | StopPlayback => fromProvider (Provider.stopPlayback c)
  | SetIsPlaying v => fromProvider (Provider.setIsPlaying v)
  | SetIsPlayingTimeout => fromProvider Provider.setIsPlaying_timeout
  | SetIsBuffering v => fromProvider (Provider.setIsBuffering v)
  | SetIsFullscreen v => fromProvider (Provider.setIsFullscreen v)
  | OnProgress data => fromProvider (Provider.onProgress data)
  | OnProgressTimeout => fromProvider (Provider.onProgress_timeout c)
  | SetCurrentlyPlayingState st =>
      fromProvider (Provider.setCurrentlyPlayingState c st)
  | TryForcePlay st => fromProvider (Provider.tryForcePlay_onPress st)
  | StartDownloadedFilePlayback st =>
      fromProvider (Provider.startDownloadedFilePlayback st)
  | PresentFullscreenPlayer => presentFullscreenPlayer
  | DismissFullscreenPlayer => dismissFullscreenPlayer
  | VideoRef attached => modify (set_videoRef attached)
  end.

(** A provider as it is mounted: the initial state, both refs null, nothing
    parked. *)
Definition mounted (w : Provider.World) : Prop :=
  Provider.state w = Provider.State.initial
  /\ Provider.previousVolume w = None
  /\ Provider.videoRef w = false
  /\ Provider.setIsPlaying_pending w = None
  /\ Provider.onProgress_pending w = None.

(** The worlds a mounted provider can get to, whatever closure each handler
    happens to hold. *)
Inductive Reachable : Provider.World -> Prop :=
| reach_mounted (w : Provider.World) : mounted w -> Reachable w
| reach_event (w : Provider.World) (c : Provider.Closure) (e : Event) :
    Reachable w -> Reachable (store (handle c e w)).

End Ui.

Module Transport.

Import Handler.
Local Open Scope handler_scope.

(** The player's state: what [Player] holds, and the two toggles. *)
Record Screen := mkScreen {
  app : Player.App;
  showControls : bool;
  ignoreSafeArea : bool
}.

Definition H := M Ui.Effect Screen.

Definition with_app (f : Player.App -> Player.App) (s : Screen) : Screen :=
  mkScreen (f (app s)) (showControls s) (ignoreSafeArea s).

(** A handler of [Player], and an action of the provider, run on the
    screen. *)
Definition inApp {A : Type} (m : Player.H A) : H A :=
  zoom app (fun a s => mkScreen a (showControls s) (ignoreSafeArea s))
    (Ui.fromProvider m).

Definition usePlayback {A : Type} (m : Provider.H A) : H A :=
  inApp (Player.usePlayback m).

Definition setShowControls (v : bool) : H unit :=
  modify (fun s => mkScreen (app s) v (ignoreSafeArea s)).

Definition set_max (v : float) : H unit :=
  modify (with_app (Player.with_player (fun p =>
    Player.mkState (Player.isSeeking p) (Player.progress p)
      (Player.cacheProgress p) v (Player.isBuffering p)))).

(** [Math.max(a, b)]: [NaN] if either is; otherwise the larger, with [+0]
    above [-0]. *)
Definition isNegativeZero (x : float) : bool :=
  match PrimFloat.classify x with
  | FloatClass.NZero => true
  | _ => false
  end.

Definition Math_max (a b : float) : float :=
  if PrimFloat.is_nan a || PrimFloat.is_nan b then PrimFloat.nan
  else if PrimFloat.ltb a b then b
  else if PrimFloat.ltb b a then a
  else if isNegativeZero a then b else a.

(** The part of the settings the skip buttons read. *)
Record Settings := mkSettings {
  rewindSkipTime : float;
  forwardSkipTime : float
}.

(** How [await videoRef.current.getCurrentPosition()] ends. *)
Inductive CurrentPosition :=
| Resolved (curr : float)
| Rejected.

(** Lines 276-298.  With no video element [curr] is undefined and nothing
    happens; a rejected promise is logged. *)
Definition handleSkipBackward (settings : option Settings)
  (position : CurrentPosition) : H unit :=
  match settings with
  | None => ret tt
  | Some s =>
      sc <- get ;;
      if Provider.videoRef (Player.provider (app sc)) then
        match position with
        | Resolved curr =>
            emit (Ui.provider
                    (Provider.videoRef_seek
                       (Math_max 0 (curr - rewindSkipTime s)%float)))
        | Rejected => emit (Ui.writeToLog "ERROR" "Error seeking video backwards")
        end
      else ret tt
  end.

Definition handleSkipForward (settings : option Settings)
  (position : CurrentPosition) : H unit :=
  match settings with
  | None => ret tt
  | Some s =>
      sc <- get ;;
      if Provider.videoRef (Player.provider (app sc)) then
        match position with
        | Resolved curr =>
            emit (Ui.provider
                    (Provider.videoRef_seek
                       (Math_max 0 (curr + forwardSkipTime s)%float)))
        | Rejected => emit (Ui.writeToLog "ERROR" "Error seeking video forwards")
        end
      else ret tt
  end.

(** Lines 246-254; [e] is [JSON.stringify] of the player's error. *)
Definition handleVideoError (e : string) : H unit :=
  emit (Ui.writeToLog "ERROR" ("Video playback error: " ++ e)) ;;
  emit (Ui.provider
          (Provider.Alert_alert (Some "Error")
             (Some "Cannot play this video file."))) ;;
  usePlayback (Provider.setIsPlaying false).

(** Lines 222-230: the effect that runs when [currentlyPlaying] changes. *)
Definition currentlyPlaying_effect (c : Provider.Closure) : H unit :=
  match Provider.State.currentlyPlaying (Provider.rendered c) with
  | Some playing =>
      inApp (Player.set_progress
               (JS.orNumber
                  (BaseItemDto.PlaybackPositionTicks (Provider.item playing))
                  0)) ;;
      set_max (JS.orNumber (BaseItemDto.RunTimeTicks (Provider.item playing)) 0) ;;
      setShowControls true ;;
      usePlayback (Provider.playVideo c true)
  | None => ret tt
  end.

(** Line 232 and lines 316-318. *)
Definition toggleControls : H unit :=
  sc <- get ;; setShowControls (negb (showControls sc)).

Definition toggleIgnoreSafeArea : H unit :=
  modify (fun s => mkScreen (app s) (showControls s) (negb (ignoreSafeArea s))).

(** The hardware back button, lines 154-173: the handler's result tells the
    system whether the press was dealt with. *)
Definition backAction (c : Provider.Closure) : H bool :=
  match Provider.State.currentlyPlaying (Provider.rendered c) with
  | Some _ => emit Ui.Alert_holdOn ;; ret true
  | None => ret false
  end.

(** The alert's "Yes" button, and the close button of the controls (lines
    164-167 and 457-460). *)
Definition exit_onPress (c : Provider.Closure) : H unit :=
  usePlayback (Provider.stopPlayback c) ;;
  emit (Ui.provider Provider.router_back).

Section Routes.

(** [itemRouter] of [components/common/TouchableItemRouter]. *)
Variable itemRouter : BaseItemDto.t -> string -> string.

(** Lines 300-314; [adjacent] is [previousItem] or [nextItem], [from] is
    [segments[2]]. *)
Definition handleGoToItem (c : Provider.Closure)
  (adjacent : option BaseItemDto.t) (from : option string) : H unit :=
  match adjacent, JS.truthy from with
  | Some it, Some segment =>
      usePlayback (Provider.stopPlayback c) ;;
      emit (Ui.router_push (itemRouter it segment))
  | _, _ => ret tt
  end.

Definition handleGoToPreviousItem := handleGoToItem.
Definition handleGoToNextItem := handleGoToItem.

End Routes.

(** A progress event after another, from a list. *)
Fixpoint videoProgressEvents (secondsToTicks : float -> float)
  (events : list Provider.OnProgressData) : Player.H unit :=
  match events with
  | [] => ret tt
  | data :: rest =>
      Player.handleVideoProgress secondsToTicks data ;;
      videoProgressEvents secondsToTicks rest
  end.

End Transport.

(* ===================================================================== *)
(** ** The report helper *)
(* ===================================================================== *)

Module Playstate.

Section Helper.

(** [reportPlaybackStopped] of [utils/jellyfin/playstate] is called by the
    provider, but its body is not among the sources: the requests a call of
    it sends are a parameter. *)
Context {Request : Type}.
Variable reportPlaybackStopped : Provider.StopReport.t -> list Request.



End Helper.


End Playstate.

(* ===================================================================== *)
(** ** Properties of getStreamUrl *)
(* ===================================================================== *)

(** *** Strings *)

Lemma append_assoc (s t u : string) : (s ++ t) ++ u = s ++ (t ++ u).
Proof. induction s as [|c s IH]; simpl; [reflexivity | now rewrite IH]. Qed.

Lemma append_nil_r (s : string) : s ++ "" = s.
Proof. induction s as [|c s IH]; simpl; [reflexivity | now rewrite IH]. Qed.

Lemma append_inv_head (s t u : string) : s ++ t = s ++ u -> t = u.
Proof.
  induction s as [|c s IH]; simpl; intros H; [exact H|].
  injection H as H. now apply IH.
Qed.

Lemma append_empty_r (s t : string) : s ++ t = "" -> t = "".
Proof. destruct s; simpl; [trivial | discriminate]. Qed.

Lemma truthy_Some (x : option string) (s : string) :
  JS.truthy x = Some s <-> x = Some s /\ s <> "".
Proof.
  unfold JS.truthy. destruct x as [s'|].
  - destruct (String.eqb_spec s' "") as [E|N]; split.
    + discriminate.
    + intros [[= ->] N]. contradiction.
    + intros [= ->]. now split.
    + now intros [[= ->] _].
  - split; [discriminate | now intros [? _]].
Qed.

Lemma truthy_None (x : option string) :
  JS.truthy x = None <-> x = None \/ x = Some "".
Proof.
  unfold JS.truthy. destruct x as [s|].
  - destruct (String.eqb_spec s "") as [->|N]; split; auto; try discriminate.
    intros [H|[= H]]; [discriminate | contradiction].
  - split; auto.
Qed.

Lemma truthy_append_r (s t : string) :
  t <> "" -> JS.truthy (Some (s ++ t)) = Some (s ++ t).
Proof.
  intros N. apply truthy_Some. split; [reflexivity|].
  intros E. now apply append_empty_r in E.
Qed.

Lemma strictEq_true (x : option string) (lit : string) :
  JS.strictEq x lit = true <-> x = Some lit.
Proof.
  unfold JS.strictEq. destruct x as [s|]; [|split; discriminate].
  rewrite String.eqb_eq. split; [now intros -> | now intros [= ->]].
Qed.

(** Show that a string includes a part by naming what comes before and after
    it. *)
Ltac cut_at before after :=
  exists before, after; now rewrite ?append_nil_r, !append_assoc.

Section StreamUrlProps.

Context {DeviceProfile Headers : Type}.
Variable ios : DeviceProfile.
Variable getAuthHeaders : Api.t -> Headers.
Variable URLSearchParams_toString : list (string * string) -> string.

Local Abbreviation getStreamUrl :=
  (StreamUrl.getStreamUrl DeviceProfile ios Headers getAuthHeaders
     URLSearchParams_toString).
Local Abbreviation selectUrl := (StreamUrl.selectUrl URLSearchParams_toString).
Local Abbreviation Args := (StreamUrl.Args DeviceProfile).

Lemma getStreamUrl_past_guard args a userId it itemId mediaSourceId sources :
  StreamUrl.pastGuard args a userId it itemId mediaSourceId ->
  StreamUrl.completion (getStreamUrl args (StreamUrl.Resolved (Some sources)))
  = match StreamUrl.findSource mediaSourceId sources with
    | None => StreamUrl.Throw (StreamUrl.Error_ "No media source")
    | Some mediaSource =>
        match JS.truthy (PlaybackInfoResponse.PlaySessionId
                           (StreamUrl.sessionData args)) with
        | None => StreamUrl.Throw (StreamUrl.Error_ "no PlaySessionId")
        | Some playSessionId =>
            match JS.truthy
                    (selectUrl a it itemId userId playSessionId mediaSource
                       (StreamUrl.subtitleStreamIndex args)
                       (JS.withDefault (StreamUrl.audioStreamIndex args) 0%Z)
                       (JS.withDefault (StreamUrl.forceDirectPlay args) false))
            with
            | None => StreamUrl.Throw (StreamUrl.Error_ "No url")
            | Some url => StreamUrl.Return (Some url)
            end
        end
    end.
Proof.
  intros (Ha & Hu & Hi & Hid & Hm).
  unfold StreamUrl.getStreamUrl, StreamUrl.itemId_of.
  rewrite Ha, Hu, Hi, Hid, Hm. reflexivity.
Qed.

(** A source returned by [find] carries the requested id. *)
Lemma findSource_Id mediaSourceId sources mediaSource :
  StreamUrl.findSource mediaSourceId sources = Some mediaSource ->
  MediaSourceInfo.Id mediaSource = Some mediaSourceId.
Proof.
  unfold StreamUrl.findSource. intros H.
  apply find_some in H as [_ H]. now apply strictEq_true.
Qed.

Lemma findSource_None mediaSourceId sources :
  StreamUrl.findSource mediaSourceId sources = None <->
  forall source, In source sources ->
                 MediaSourceInfo.Id source <> Some mediaSourceId.
Proof.
  unfold StreamUrl.findSource. split.
  - intros H source Hin E.
    apply (find_none _ _ H) in Hin. apply strictEq_true in E. congruence.
  - intros H. induction sources as [|s l IH]; [reflexivity|]. simpl.
    destruct (JS.strictEq (MediaSourceInfo.Id s) mediaSourceId) eqn:E.
    + apply strictEq_true in E. exfalso. apply (H s); simpl; auto.
    + apply IH. intros source Hin. apply H. now right.
Qed.

(** Whatever [selectUrl] forms is a non-empty string. *)
Lemma selectUrl_truthy a it itemId userId sid ms sub audio force url :
  selectUrl a it itemId userId sid ms sub audio force = Some url ->
  JS.truthy (Some url) = Some url.
Proof.
  unfold StreamUrl.selectUrl.
  destruct (_ || _).
  - destruct (JS.strictEq _ "Video").
    + intros [= <-]. unfold StreamUrl.directVideoUrl, StreamUrl.directVideoPath.
      apply truthy_append_r. discriminate.
    + destruct (JS.strictEq _ "Audio"); [|discriminate].
      intros [= <-]. unfold StreamUrl.universalAudioUrl.
      apply truthy_append_r. discriminate.
  - destruct (JS.truthy (MediaSourceInfo.TranscodingUrl ms)) as [t|] eqn:E;
      [|discriminate].
    intros [= <-]. apply truthy_append_r. now apply truthy_Some in E.
Qed.

(** *** The null guard *)

(** C9.  When [api], [userId], [item] (or [item.Id]) or [mediaSourceId] is
    null or undefined, getStreamUrl returns [null]; it issues no request and
    throws nothing, whatever the server would have answered. *)
Theorem C9_null_argument_returns_null (args : Args)
  (response : StreamUrl.AxiosResult) :
  StreamUrl.api args = None
  \/ StreamUrl.userId args = None
  \/ StreamUrl.itemId_of (StreamUrl.item args) = None
  \/ StreamUrl.mediaSourceId args = None ->
  StreamUrl.requests (getStreamUrl args response) = []
  /\ StreamUrl.completion (getStreamUrl args response) = StreamUrl.Return None.
Proof.
  intros H. unfold StreamUrl.getStreamUrl.
  destruct (StreamUrl.api args) as [a|]; [|now split].
  destruct (JS.truthy (StreamUrl.userId args)) as [u|] eqn:Hu; [|now split].
  destruct (StreamUrl.item args) as [it|] eqn:Hit; [|now split].
  destruct (JS.truthy (StreamUrl.itemId_of (Some it))) as [i|] eqn:Hi;
    [|now split].
  destruct (JS.truthy (StreamUrl.mediaSourceId args)) as [m|] eqn:Hm;
    [|now split].
  exfalso.
  destruct H as [H|[H|[H|H]]]; try discriminate;
    rewrite H in *; discriminate.
Qed.

(** The guard also stops empty strings, and nothing else: a call goes on to
    the request exactly when all four values are truthy. *)
Lemma getStreamUrl_requests (args : Args) (response : StreamUrl.AxiosResult) :
  StreamUrl.requests (getStreamUrl args response) = [] \/
  exists a userId it itemId mediaSourceId,
    StreamUrl.pastGuard args a userId it itemId mediaSourceId
    /\ StreamUrl.requests (getStreamUrl args response)
       = [StreamUrl.playbackInfoRequest DeviceProfile ios Headers getAuthHeaders
            a itemId userId mediaSourceId args].
Proof.
  unfold StreamUrl.getStreamUrl, StreamUrl.pastGuard.
  destruct (StreamUrl.api args) as [a|]; [|now left].
  destruct (JS.truthy (StreamUrl.userId args)) as [u|] eqn:Hu; [|now left].
  destruct (StreamUrl.item args) as [it|] eqn:Hit; [|now left].
  destruct (JS.truthy (StreamUrl.itemId_of (Some it))) as [i|] eqn:Hi;
    [|now left].
  destruct (JS.truthy (StreamUrl.mediaSourceId args)) as [m|] eqn:Hm;
    [|now left].
  right. exists a, u, it, i, m. simpl in Hi. now repeat split.
Qed.

(** *** Direct play *)

(** C3.  For a [Video] item whose matching media source supports direct play,
    with a play-session id present, the returned URL is the static-stream
    endpoint [/Videos/{itemId}/stream.mp4] with [static=true], and it carries
    the [playSessionId], [mediaSourceId], [subtitleStreamIndex],
    [audioStreamIndex], [deviceId] and [api_key] parameters. *)
Theorem C3_direct_play_video_url (args : Args) (a : Api.t) (userId : string)
  (it : BaseItemDto.t) (itemId mediaSourceId : string)
  (sources : list MediaSourceInfo.t) (mediaSource : MediaSourceInfo.t)
  (playSessionId : string) :
  StreamUrl.pastGuard args a userId it itemId mediaSourceId ->
  StreamUrl.findSource mediaSourceId sources = Some mediaSource ->
  JS.truthy (PlaybackInfoResponse.PlaySessionId (StreamUrl.sessionData args))
  = Some playSessionId ->
  BaseItemDto.MediaType it = Some "Video" ->
  MediaSourceInfo.SupportsDirectPlay mediaSource = Some true ->
  let url :=
    Api.basePath a ++ "/Videos/" ++ itemId ++ "/stream.mp4?playSessionId="
      ++ playSessionId ++ "&mediaSourceId=" ++ mediaSourceId
      ++ "&static=true&subtitleStreamIndex="
      ++ JS.tplInt (StreamUrl.subtitleStreamIndex args)
      ++ "&audioStreamIndex="
      ++ JS.intToString (JS.withDefault (StreamUrl.audioStreamIndex args) 0%Z)
      ++ "&deviceId=" ++ Api.deviceInfo_id a
      ++ "&api_key=" ++ Api.accessToken a in
  StreamUrl.completion (getStreamUrl args (StreamUrl.Resolved (Some sources)))
  = StreamUrl.Return (Some url)
  /\ JS.includes ("/Videos/" ++ itemId ++ "/stream.mp4") url
  /\ JS.includes "static=true" url
  /\ JS.includes ("playSessionId=" ++ playSessionId) url
  /\ JS.includes ("mediaSourceId=" ++ mediaSourceId) url
  /\ JS.includes ("subtitleStreamIndex="
               ++ JS.tplInt (StreamUrl.subtitleStreamIndex args)) url
  /\ JS.includes ("audioStreamIndex="
               ++ JS.intToString
                    (JS.withDefault (StreamUrl.audioStreamIndex args) 0%Z)) url
  /\ JS.includes ("deviceId=" ++ Api.deviceInfo_id a) url
  /\ JS.includes ("api_key=" ++ Api.accessToken a) url.
Proof.
  intros G Hfind Hsid Hvideo Hdirect url.
  split.
  - rewrite (getStreamUrl_past_guard _ _ _ _ _ _ sources G), Hfind, Hsid.
    assert (Hsel :
      selectUrl a it itemId userId playSessionId mediaSource
        (StreamUrl.subtitleStreamIndex args)
        (JS.withDefault (StreamUrl.audioStreamIndex args) 0%Z)
        (JS.withDefault (StreamUrl.forceDirectPlay args) false) = Some url).
    { unfold StreamUrl.selectUrl. rewrite Hdirect, Hvideo. simpl.
      rewrite (findSource_Id _ _ _ Hfind). reflexivity. }
    rewrite Hsel, (selectUrl_truthy _ _ _ _ _ _ _ _ _ _ Hsel). reflexivity.
  - subst url.
    set (sub := JS.tplInt (StreamUrl.subtitleStreamIndex args)).
    set (audio :=
           JS.intToString (JS.withDefault (StreamUrl.audioStreamIndex args) 0%Z)).
    set (device := Api.deviceInfo_id a).
    set (key := Api.accessToken a).
    set (base := Api.basePath a).
    repeat split.
    + cut_at base
        ("?playSessionId=" ++ playSessionId ++ "&mediaSourceId=" ++ mediaSourceId
         ++ "&static=true&subtitleStreamIndex=" ++ sub ++ "&audioStreamIndex="
         ++ audio ++ "&deviceId=" ++ device ++ "&api_key=" ++ key).
    + cut_at
        (base ++ "/Videos/" ++ itemId ++ "/stream.mp4?playSessionId="
         ++ playSessionId ++ "&mediaSourceId=" ++ mediaSourceId ++ "&")
        ("&subtitleStreamIndex=" ++ sub ++ "&audioStreamIndex=" ++ audio
         ++ "&deviceId=" ++ device ++ "&api_key=" ++ key).
    + cut_at
        (base ++ "/Videos/" ++ itemId ++ "/stream.mp4?")
        ("&mediaSourceId=" ++ mediaSourceId
         ++ "&static=true&subtitleStreamIndex=" ++ sub ++ "&audioStreamIndex="
         ++ audio ++ "&deviceId=" ++ device ++ "&api_key=" ++ key).
    + cut_at
        (base ++ "/Videos/" ++ itemId ++ "/stream.mp4?playSessionId="
         ++ playSessionId ++ "&")
        ("&static=true&subtitleStreamIndex=" ++ sub ++ "&audioStreamIndex="
         ++ audio ++ "&deviceId=" ++ device ++ "&api_key=" ++ key).
    + cut_at
        (base ++ "/Videos/" ++ itemId ++ "/stream.mp4?playSessionId="
         ++ playSessionId ++ "&mediaSourceId=" ++ mediaSourceId
         ++ "&static=true&")
        ("&audioStreamIndex=" ++ audio ++ "&deviceId=" ++ device
         ++ "&api_key=" ++ key).
    + cut_at
        (base ++ "/Videos/" ++ itemId ++ "/stream.mp4?playSessionId="
         ++ playSessionId ++ "&mediaSourceId=" ++ mediaSourceId
         ++ "&static=true&subtitleStreamIndex=" ++ sub ++ "&")
        ("&deviceId=" ++ device ++ "&api_key=" ++ key).
    + cut_at
        (base ++ "/Videos/" ++ itemId ++ "/stream.mp4?playSessionId="
         ++ playSessionId ++ "&mediaSourceId=" ++ mediaSourceId
         ++ "&static=true&subtitleStreamIndex=" ++ sub ++ "&audioStreamIndex="
         ++ audio ++ "&")
        ("&api_key=" ++ key).
    + cut_at
        (base ++ "/Videos/" ++ itemId ++ "/stream.mp4?playSessionId="
         ++ playSessionId ++ "&mediaSourceId=" ++ mediaSourceId
         ++ "&static=true&subtitleStreamIndex=" ++ sub ++ "&audioStreamIndex="
         ++ audio ++ "&deviceId=" ++ device ++ "&")
        "".
Qed.

(** *** Which branch forms the URL *)

Lemma directPlay_test (args : Args) (mediaSource : MediaSourceInfo.t) :
  JS.truthyBool (MediaSourceInfo.SupportsDirectPlay mediaSource)
  || Bool.eqb (JS.withDefault (StreamUrl.forceDirectPlay args) false) true = true
  <-> StreamUrl.directPlay args mediaSource.
Proof.
  unfold StreamUrl.directPlay.
  destruct (MediaSourceInfo.SupportsDirectPlay mediaSource) as [[|]|];
    destruct (StreamUrl.forceDirectPlay args) as [[|]|]; simpl;
    split; auto; try discriminate; intros [H|H]; discriminate.
Qed.

Lemma strictEq_false (x : option string) (lit : string) :
  JS.strictEq x lit = false <-> x <> Some lit.
Proof.
  rewrite <- strictEq_true. destruct (JS.strictEq x lit); split; congruence.
Qed.

(** [selectUrl] leaves [url] unset in exactly two situations. *)
Lemma selectUrl_None (args : Args) a it itemId userId sid mediaSource :
  selectUrl a it itemId userId sid mediaSource
    (StreamUrl.subtitleStreamIndex args)
    (JS.withDefault (StreamUrl.audioStreamIndex args) 0%Z)
    (JS.withDefault (StreamUrl.forceDirectPlay args) false) = None
  <-> (StreamUrl.directPlay args mediaSource
       /\ BaseItemDto.MediaType it <> Some "Video"
       /\ BaseItemDto.MediaType it <> Some "Audio")
      \/ (~ StreamUrl.directPlay args mediaSource
          /\ JS.truthy (MediaSourceInfo.TranscodingUrl mediaSource) = None).
Proof.
  unfold StreamUrl.selectUrl.
  rewrite <- (directPlay_test args mediaSource), <- !strictEq_false.
  destruct (_ || _).
  - destruct (JS.strictEq _ "Video"), (JS.strictEq _ "Audio"); split;
      try discriminate; auto;
      intros [(_ & ? & ?)|(N & _)]; congruence.
  - destruct (JS.truthy (MediaSourceInfo.TranscodingUrl mediaSource)); split;
      try discriminate.
    + intros [(? & _)|(_ & ?)]; discriminate.
    + intros _. right. split; [discriminate | reflexivity].
    + reflexivity.
Qed.

(** *** Transcoding *)

(** C1, amended.  When the matching media source has [SupportsDirectPlay =
    false] and a non-empty [TranscodingUrl], a play-session id is present
    and direct play is not forced, the returned URL is the API base path
    followed by the server-supplied transcode URL; it is not the direct
    static-stream template unless the server's transcode URL is itself that
    template's path. *)
Theorem C1_transcode_url_unless_forced (args : Args) (a : Api.t)
  (userId : string) (it : BaseItemDto.t) (itemId mediaSourceId : string)
  (sources : list MediaSourceInfo.t) (mediaSource : MediaSourceInfo.t)
  (playSessionId transcodingUrl : string) :
  StreamUrl.pastGuard args a userId it itemId mediaSourceId ->
  StreamUrl.findSource mediaSourceId sources = Some mediaSource ->
  MediaSourceInfo.SupportsDirectPlay mediaSource = Some false ->
  JS.truthy (MediaSourceInfo.TranscodingUrl mediaSource) = Some transcodingUrl ->
  JS.truthy (PlaybackInfoResponse.PlaySessionId (StreamUrl.sessionData args))
  = Some playSessionId ->
  StreamUrl.forceDirectPlay args <> Some true ->
  StreamUrl.completion (getStreamUrl args (StreamUrl.Resolved (Some sources)))
  = StreamUrl.Return (Some (Api.basePath a ++ transcodingUrl))
  /\ (transcodingUrl
      <> StreamUrl.directVideoPath itemId (Some playSessionId)
           (Some mediaSourceId) (StreamUrl.subtitleStreamIndex args)
           (JS.withDefault (StreamUrl.audioStreamIndex args) 0%Z) a ->
      Api.basePath a ++ transcodingUrl
      <> StreamUrl.directVideoUrl itemId (Some playSessionId)
           (Some mediaSourceId) (StreamUrl.subtitleStreamIndex args)
           (JS.withDefault (StreamUrl.audioStreamIndex args) 0%Z) a).
Proof.
  intros G Hfind Hdirect Hurl Hsid Hforce. split.
  - rewrite (getStreamUrl_past_guard _ _ _ _ _ _ sources G), Hfind, Hsid.
    assert (Hsel :
      selectUrl a it itemId userId playSessionId mediaSource
        (StreamUrl.subtitleStreamIndex args)
        (JS.withDefault (StreamUrl.audioStreamIndex args) 0%Z)
        (JS.withDefault (StreamUrl.forceDirectPlay args) false)
      = Some (Api.basePath a ++ transcodingUrl)).
    { unfold StreamUrl.selectUrl. rewrite Hdirect, Hurl.
      destruct (StreamUrl.forceDirectPlay args) as [[|]|];
        [congruence | reflexivity | reflexivity]. }
    rewrite Hsel, (selectUrl_truthy _ _ _ _ _ _ _ _ _ _ Hsel). reflexivity.
  - intros N E. apply N. unfold StreamUrl.directVideoUrl in E.
    now apply append_inv_head in E.
Qed.

(** *** The failures of a call *)

(** C2, amended.  Once the guard is passed and the server has answered with
    a [MediaSources] list, the three errors are tested in this order: "No
    media source" exactly when no source carries the requested id; otherwise
    "no PlaySessionId" exactly when [sessionData] has no (or an empty)
    [PlaySessionId]; otherwise "No url" exactly when the branch taken forms
    no URL, that is, direct play is supported or forced and the item is
    neither [Video] nor [Audio], or direct play is neither supported nor
    forced and the source has no [TranscodingUrl]; in every other case the
    call returns a non-empty URL. *)
Theorem C2_failures_in_order (args : Args) (a : Api.t) (userId : string)
  (it : BaseItemDto.t) (itemId mediaSourceId : string)
  (sources : list MediaSourceInfo.t) :
  StreamUrl.pastGuard args a userId it itemId mediaSourceId ->
  let out :=
    StreamUrl.completion
      (getStreamUrl args (StreamUrl.Resolved (Some sources))) in
  let sessionId :=
    PlaybackInfoResponse.PlaySessionId (StreamUrl.sessionData args) in
  (out = StreamUrl.Throw (StreamUrl.Error_ "No media source")
   <-> StreamUrl.findSource mediaSourceId sources = None)
  /\ (out = StreamUrl.Throw (StreamUrl.Error_ "no PlaySessionId")
      <-> StreamUrl.findSource mediaSourceId sources <> None
          /\ JS.truthy sessionId = None)
  /\ (out = StreamUrl.Throw (StreamUrl.Error_ "No url")
      <-> exists mediaSource,
            StreamUrl.findSource mediaSourceId sources = Some mediaSource
            /\ JS.truthy sessionId <> None
            /\ ((StreamUrl.directPlay args mediaSource
                 /\ BaseItemDto.MediaType it <> Some "Video"
                 /\ BaseItemDto.MediaType it <> Some "Audio")
                \/ (~ StreamUrl.directPlay args mediaSource
                    /\ JS.truthy (MediaSourceInfo.TranscodingUrl mediaSource)
                       = None)))
  /\ (out = StreamUrl.Throw (StreamUrl.Error_ "No media source")
      \/ out = StreamUrl.Throw (StreamUrl.Error_ "no PlaySessionId")
      \/ out = StreamUrl.Throw (StreamUrl.Error_ "No url")
      \/ exists url, out = StreamUrl.Return (Some url) /\ url <> "").
Proof.
  intros G out sessionId. subst out sessionId.
  rewrite (getStreamUrl_past_guard _ _ _ _ _ _ sources G).
  destruct (StreamUrl.findSource mediaSourceId sources) as [ms|].
  2:{ repeat split; auto; try discriminate.
      - now intros [N _].
      - intros (? & ? & _). discriminate. }
  destruct (JS.truthy (PlaybackInfoResponse.PlaySessionId _)) as [sid|].
  2:{ repeat split; auto; try discriminate.
      intros (? & _ & N & _). now contradiction N. }
  pose proof (selectUrl_None args a it itemId userId sid ms) as HN.
  destruct (selectUrl a it itemId userId sid ms _ _ _) as [url|] eqn:Hsel.
  - rewrite (selectUrl_truthy _ _ _ _ _ _ _ _ _ _ Hsel).
    repeat split; try discriminate.
    + now intros [_ ?].
    + intros (ms' & [= <-] & _ & H). apply HN in H. discriminate.
    + right; right; right. exists url. split; [reflexivity|].
      apply selectUrl_truthy in Hsel. now apply truthy_Some in Hsel.
  - simpl. repeat split; auto; try discriminate.
    + now intros [_ ?].
    + intros _. exists ms. repeat split; [discriminate | now apply HN].
Qed.

(** C10, amended.  When the matching media source supports direct play (or
    direct play is forced) but the item is neither [Video] nor [Audio], the
    call throws: "No url" when a play-session id is present, and "no
    PlaySessionId" when it is not.  A [TranscodingUrl] on the source changes
    nothing: with direct play supported or forced, the URL selection does not
    read it. *)
Theorem C10_direct_play_without_media_type_throws (args : Args) (a : Api.t)
  (userId : string) (it : BaseItemDto.t) (itemId mediaSourceId : string)
  (sources : list MediaSourceInfo.t) (mediaSource : MediaSourceInfo.t) :
  StreamUrl.pastGuard args a userId it itemId mediaSourceId ->
  StreamUrl.findSource mediaSourceId sources = Some mediaSource ->
  StreamUrl.directPlay args mediaSource ->
  BaseItemDto.MediaType it <> Some "Video" ->
  BaseItemDto.MediaType it <> Some "Audio" ->
  let out :=
    StreamUrl.completion
      (getStreamUrl args (StreamUrl.Resolved (Some sources))) in
  let sessionId :=
    PlaybackInfoResponse.PlaySessionId (StreamUrl.sessionData args) in
  (JS.truthy sessionId <> None ->
   out = StreamUrl.Throw (StreamUrl.Error_ "No url"))
  /\ (JS.truthy sessionId = None ->
      out = StreamUrl.Throw (StreamUrl.Error_ "no PlaySessionId"))
  /\ (forall (playSessionId : string) (transcodingUrl : option string),
        selectUrl a it itemId userId playSessionId
          (MediaSourceInfo.mk (MediaSourceInfo.Id mediaSource)
             (MediaSourceInfo.SupportsDirectPlay mediaSource) transcodingUrl)
          (StreamUrl.subtitleStreamIndex args)
          (JS.withDefault (StreamUrl.audioStreamIndex args) 0%Z)
          (JS.withDefault (StreamUrl.forceDirectPlay args) false)
        = selectUrl a it itemId userId playSessionId mediaSource
            (StreamUrl.subtitleStreamIndex args)
            (JS.withDefault (StreamUrl.audioStreamIndex args) 0%Z)
            (JS.withDefault (StreamUrl.forceDirectPlay args) false)).
Proof.
  intros G Hfind Hdirect Hv Ha out sessionId. subst out sessionId.
  rewrite (getStreamUrl_past_guard _ _ _ _ _ _ sources G), Hfind.
  repeat split.
  - destruct (JS.truthy (PlaybackInfoResponse.PlaySessionId _)) as [sid|];
      [intros _ | congruence].
    assert (Hsel :
      selectUrl a it itemId userId sid mediaSource
        (StreamUrl.subtitleStreamIndex args)
        (JS.withDefault (StreamUrl.audioStreamIndex args) 0%Z)
        (JS.withDefault (StreamUrl.forceDirectPlay args) false) = None)
      by (apply selectUrl_None; left; auto).
    now rewrite Hsel.
  - now intros ->.
  - intros sid t. apply directPlay_test in Hdirect.
    unfold StreamUrl.selectUrl. simpl. now rewrite Hdirect.
Qed.

End StreamUrlProps.


(** *** The theorems above on a concrete call *)

Lemma C9_witness :
  let args :=
    StreamUrl.mkArgs None (Some Platform.video1) (Some "user") None None
      Platform.session0 None None None None None (Some "src1") in
  StreamUrl.api args = None
  /\ StreamUrl.requests (Platform.getStreamUrl args StreamUrl.Rejected) = []
  /\ StreamUrl.completion (Platform.getStreamUrl args StreamUrl.Rejected)
     = StreamUrl.Return None.
Proof.
  split; [reflexivity|].
  apply (C9_null_argument_returns_null Platform.ios Platform.getAuthHeaders
           Platform.URLSearchParams_toString).
  left. reflexivity.
Defined.

Lemma pastGuard_call (it : BaseItemDto.t) (sessionData : PlaybackInfoResponse.t)
  (forceDirectPlay : option bool) (itemId : string) :
  JS.truthy (BaseItemDto.Id it) = Some itemId ->
  StreamUrl.pastGuard (Platform.call it sessionData forceDirectPlay)
    Platform.api0 "user" it itemId "src1".
Proof. intros H. repeat split; assumption. Qed.

Lemma C3_witness :
  StreamUrl.completion
    (Platform.getStreamUrl
       (Platform.call Platform.video1 Platform.session0 None)
       (StreamUrl.Resolved (Some [Platform.directOnly])))
  = StreamUrl.Return
      (Some ("http://srv/Videos/1/stream.mp4?playSessionId=sess"
             ++ "&mediaSourceId=src1&static=true&subtitleStreamIndex=undefined"
             ++ "&audioStreamIndex=0&deviceId=dev&api_key=tok")).
Proof.
  refine (proj1 (C3_direct_play_video_url Platform.ios Platform.getAuthHeaders
            Platform.URLSearchParams_toString
            (Platform.call Platform.video1 Platform.session0 None)
            Platform.api0 "user" Platform.video1 "1" "src1"
            [Platform.directOnly] Platform.directOnly "sess"
            _ eq_refl eq_refl eq_refl eq_refl)).
  repeat split; reflexivity.
Defined.

(** The audio branch, on the platform's serializer. *)
Example getStreamUrl_audio :
  Platform.getStreamUrl (Platform.call Platform.audio1 Platform.session0 None)
    (StreamUrl.Resolved (Some [Platform.directOnly]))
  = StreamUrl.mkRun _ _
      [StreamUrl.playbackInfoRequest _ Platform.ios _ Platform.getAuthHeaders
         Platform.api0 "1" "user" "src1"
         (Platform.call Platform.audio1 Platform.session0 None)]
      (StreamUrl.Return
         (Some ("http://srv/Audio/1/universal?UserId=user&DeviceId=dev"
                ++ "&MaxStreamingBitrate=140000000&Container=opus%2Cwebm%7Copus"
                ++ "%2Cmp3%2Caac%2Cm4a%7Caac%2Cm4b%7Caac%2Cflac%2Cwebma%2Cwebm"
                ++ "%7Cwebma%2Cwav%2Cogg&TranscodingContainer=mp4"
                ++ "&TranscodingProtocol=hls&AudioCodec=aac&api_key=tok"
                ++ "&PlaySessionId=sess&StartTimeTicks=0&EnableRedirection=true"
                ++ "&EnableRemoteMedia=false"))).
Proof. reflexivity. Qed.

(** A request that fails, and an answer without a source list. *)
Example getStreamUrl_request_fails :
  StreamUrl.completion
    (Platform.getStreamUrl
       (Platform.call Platform.video1 Platform.session0 None)
       StreamUrl.Rejected)
  = StreamUrl.Throw StreamUrl.AxiosError_
  /\ StreamUrl.completion
       (Platform.getStreamUrl
          (Platform.call Platform.video1 Platform.session0 None)
          (StreamUrl.Resolved None))
     = StreamUrl.Throw StreamUrl.TypeError_.
Proof. split; reflexivity. Qed.

(** C1 as stated fails.  With [forceDirectPlay = true], a video item and a
    source that has [SupportsDirectPlay = false] and a transcode URL, the
    call returns the direct static-stream template and not the transcode
    URL.  And a server whose transcode URL spells the template's own path
    gets that very string back. *)
Lemma C1_counterexample :
  let forced :=
    StreamUrl.completion
      (Platform.getStreamUrl
         (Platform.call Platform.video1 Platform.session0 (Some true))
         (StreamUrl.Resolved (Some [Platform.transcodeOnly]))) in
  let spelled :=
    StreamUrl.completion
      (Platform.getStreamUrl
         (Platform.call Platform.video1 Platform.session0 None)
         (StreamUrl.Resolved (Some [Platform.templateAsTranscode]))) in
  let template :=
    StreamUrl.directVideoUrl "1" (Some "sess") (Some "src1") None 0
      Platform.api0 in
  StreamUrl.findSource "src1" [Platform.transcodeOnly]
  = Some Platform.transcodeOnly
  /\ MediaSourceInfo.SupportsDirectPlay Platform.transcodeOnly = Some false
  /\ JS.truthy (MediaSourceInfo.TranscodingUrl Platform.transcodeOnly)
     = Some "/videos/1/master.m3u8"
  /\ JS.truthy (PlaybackInfoResponse.PlaySessionId Platform.session0)
     = Some "sess"
  /\ forced = StreamUrl.Return (Some template)
  /\ forced <> StreamUrl.Return (Some ("http://srv" ++ "/videos/1/master.m3u8"))
  /\ MediaSourceInfo.SupportsDirectPlay Platform.templateAsTranscode
     = Some false
  /\ spelled = StreamUrl.Return (Some template).
Proof. repeat split; try reflexivity. discriminate. Qed.

Lemma C1_witness :
  StreamUrl.completion
    (Platform.getStreamUrl
       (Platform.call Platform.video1 Platform.session0 None)
       (StreamUrl.Resolved (Some [Platform.transcodeOnly])))
  = StreamUrl.Return (Some "http://srv/videos/1/master.m3u8").
Proof.
  refine (proj1 (C1_transcode_url_unless_forced Platform.ios
            Platform.getAuthHeaders Platform.URLSearchParams_toString
            (Platform.call Platform.video1 Platform.session0 None)
            Platform.api0 "user" Platform.video1 "1" "src1"
            [Platform.transcodeOnly] Platform.transcodeOnly "sess"
            "/videos/1/master.m3u8" _ eq_refl eq_refl eq_refl eq_refl _)).
  - repeat split; reflexivity.
  - discriminate.
Defined.

(** C2 as stated fails.  With no source in the answer and no play-session
    id, the error is "No media source", not the session error; with direct
    play supported, an item that is neither video nor audio, and a transcode
    URL at hand, the error is "No url"; and with a user id that is not null
    but empty, the call neither fails nor returns a URL: it returns null. *)
Lemma C2_counterexample :
  let unknownSource :=
    StreamUrl.completion
      (Platform.getStreamUrl
         (Platform.call Platform.video1 Platform.noSession None)
         (StreamUrl.Resolved (Some []))) in
  let book :=
    StreamUrl.completion
      (Platform.getStreamUrl
         (Platform.call Platform.book1 Platform.session0 None)
         (StreamUrl.Resolved (Some [Platform.directToo]))) in
  PlaybackInfoResponse.PlaySessionId Platform.noSession = None
  /\ unknownSource = StreamUrl.Throw (StreamUrl.Error_ "No media source")
  /\ unknownSource <> StreamUrl.Throw (StreamUrl.Error_ "no PlaySessionId")
  /\ JS.truthy (MediaSourceInfo.TranscodingUrl Platform.directToo)
     = Some "/videos/1/master.m3u8"
  /\ book = StreamUrl.Throw (StreamUrl.Error_ "No url")
  /\ StreamUrl.completion
       (Platform.getStreamUrl
          (StreamUrl.mkArgs (Some Platform.api0) (Some Platform.video1)
             (Some "") None None Platform.session0 None None None None None
             (Some "src1"))
          (StreamUrl.Resolved (Some [Platform.directOnly])))
     = StreamUrl.Return None.
Proof. repeat split; try reflexivity. discriminate. Qed.

Lemma C2_witness :
  StreamUrl.findSource "src1" [Platform.directOnly] <> None
  /\ exists url,
       StreamUrl.completion
         (Platform.getStreamUrl
            (Platform.call Platform.audio1 Platform.session0 None)
            (StreamUrl.Resolved (Some [Platform.directOnly])))
       = StreamUrl.Return (Some url) /\ url <> "".
Proof.
  split; [discriminate|].
  destruct (C2_failures_in_order Platform.ios Platform.getAuthHeaders
              Platform.URLSearchParams_toString
              (Platform.call Platform.audio1 Platform.session0 None)
              Platform.api0 "user" Platform.audio1 "1" "src1"
              [Platform.directOnly]
              (pastGuard_call Platform.audio1 Platform.session0 None "1" eq_refl))
    as (_ & _ & _ & [H|[H|[H|H]]]); try discriminate H.
  exact H.
Defined.

(** C10 as stated fails.  With direct play supported, an item that is
    neither video nor audio, a transcode URL at hand and no play-session id,
    the error is "no PlaySessionId", not "No url". *)
Lemma C10_counterexample :
  let out :=
    StreamUrl.completion
      (Platform.getStreamUrl
         (Platform.call Platform.book1 Platform.noSession None)
         (StreamUrl.Resolved (Some [Platform.directToo]))) in
  StreamUrl.findSource "src1" [Platform.directToo] = Some Platform.directToo
  /\ MediaSourceInfo.SupportsDirectPlay Platform.directToo = Some true
  /\ BaseItemDto.MediaType Platform.book1 = Some "Book"
  /\ out = StreamUrl.Throw (StreamUrl.Error_ "no PlaySessionId")
  /\ out <> StreamUrl.Throw (StreamUrl.Error_ "No url").
Proof. repeat split; try reflexivity. discriminate. Qed.

Lemma C10_witness :
  StreamUrl.completion
    (Platform.getStreamUrl
       (Platform.call Platform.book1 Platform.session0 None)
       (StreamUrl.Resolved (Some [Platform.directToo])))
  = StreamUrl.Throw (StreamUrl.Error_ "No url").
Proof.
  refine (proj1 (C10_direct_play_without_media_type_throws Platform.ios
            Platform.getAuthHeaders Platform.URLSearchParams_toString
            (Platform.call Platform.book1 Platform.session0 None)
            Platform.api0 "user" Platform.book1 "1" "src1"
            [Platform.directToo] Platform.directToo
            _ eq_refl _ _ _) _).
  - repeat split; reflexivity.
  - left. reflexivity.
  - discriminate.
  - discriminate.
  - discriminate.
Defined.

(* ===================================================================== *)
(** ** Properties of the playback provider *)
(* ===================================================================== *)

(** Unfold the sequencing of a handler down to its store and trace. *)
Ltac run_handler :=
  cbv [Handler.bind Handler.get Handler.modify Handler.emit Handler.ret
       Handler.zoom Handler.trace Handler.store
       Provider.setVolume Provider._setVolume Provider.videoRef_current
       Provider.pauseVideo Provider.playVideo Provider._setIsPlaying
       Player.usePlayback Player.set_progress Player.set_isSeeking];
  simpl.

Section ProviderProps.

Import Provider.

(** *** Progress reports *)

(** C5.  On a progress event, [_onProgress] sends no report and leaves
    [progressTicks] (and everything else) unchanged when the session has no
    [PlaySessionId], when there is no current item id, or when the reported
    position is exactly zero; otherwise it stores the position and sends
    exactly one report carrying that position and the pause state. *)
Theorem C5_onProgress_skips_or_reports_once (c : Closure)
  (data : OnProgressData) (w : World) :
  let sessionId := session_PlaySessionId (State.session (rendered c)) in
  let itemId := item_Id (State.currentlyPlaying (rendered c)) in
  let ticks := (currentTime data * 10000000)%float in
  (JS.truthy sessionId = None \/ JS.truthy itemId = None
   \/ PrimFloat.eqb (currentTime data) 0 = true ->
   _onProgress c data w = (tt, w, [])
   /\ State.progressTicks (state (Handler.store (_onProgress c data w)))
      = State.progressTicks (state w))
  /\ (JS.truthy sessionId <> None -> JS.truthy itemId <> None ->
      PrimFloat.eqb (currentTime data) 0 = false ->
      Handler.trace (_onProgress c data w)
      = [reportPlaybackProgress
           {| ProgressReport.api := api c;
              ProgressReport.itemId := itemId;
              ProgressReport.positionTicks := ticks;
              ProgressReport.sessionId := sessionId;
              ProgressReport.IsPaused := negb (State.isPlaying (rendered c)) |}]
      /\ Handler.store (_onProgress c data w)
         = with_state (State.set_progressTicks (Some ticks)) w).
Proof.
  intros sessionId itemId ticks. subst sessionId itemId ticks. split.
  - intros H.
    assert (E : _onProgress c data w = (tt, w, [])).
    { unfold _onProgress, not_.
      destruct (JS.truthy (session_PlaySessionId _)); [|reflexivity].
      destruct (JS.truthy (item_Id _)); [|reflexivity].
      destruct (PrimFloat.eqb (currentTime data) 0); [reflexivity|].
      destruct H as [H|[H|H]]; discriminate. }
    split; [exact E | now rewrite E].
  - intros Hs Hi Ht. unfold _onProgress, not_. rewrite Ht.
    destruct (JS.truthy (session_PlaySessionId _)); [|congruence].
    destruct (JS.truthy (item_Id _)); [|congruence].
    split; reflexivity.
Qed.

(** The debounced wrapper itself sends nothing: it parks the event. *)
Lemma onProgress_parks (e : OnProgressData) (w : World) :
  onProgress e w = (tt, with_onProgress_pending (Some e) w, []).
Proof. reflexivity. Qed.

(** *** Stopping *)

(** [setCurrentlyPlayingState(null)] *)
Lemma setCurrentlyPlayingState_null (c : Closure) (w : World) :
  setCurrentlyPlayingState c None w
  = (tt,
     with_setIsPlaying_pending (Some false)
       (with_state (State.set_isFullscreen false)
          (with_state (State.set_currentlyPlaying None) w)),
     []).
Proof. reflexivity. Qed.


End ProviderProps.



Lemma C5_witness :
  Provider._onProgress (Platform.closure Platform.idle)
    (Provider.mkOnProgressData 12 30 30) Platform.idle
  = (tt, Platform.idle, [])
  /\ Handler.trace
       (Provider._onProgress (Platform.closure Platform.playing)
          (Provider.mkOnProgressData 91.5 120 120) Platform.playing)
     = [Provider.reportPlaybackProgress
          (Provider.ProgressReport.mk (Some Platform.api0) (Some "1")
             915000000 (Some "sess") false)].
Proof.
  split.
  - apply (C5_onProgress_skips_or_reports_once
             (Platform.closure Platform.idle)
             (Provider.mkOnProgressData 12 30 30) Platform.idle).
    left. reflexivity.
  - apply (C5_onProgress_skips_or_reports_once
             (Platform.closure Platform.playing)
             (Provider.mkOnProgressData 91.5 120 120) Platform.playing);
      [discriminate | discriminate | reflexivity].
Defined.

(* ===================================================================== *)
(** ** Remote commands *)
(* ===================================================================== *)

Section RemoteCommands.

Import Provider.

Variable c : Closure.
Variable w : World.

Lemma onmessage_PlayPause (json : Message) :
  Command json = Some "PlayPause" ->
  onmessage c json w
  = (if State.isPlaying (rendered c) then pauseVideo c true w
     else playVideo c true w)
  /\ State.isPlaying (state (Handler.store (onmessage c json w)))
     = negb (State.isPlaying (rendered c)).
Proof.
  intros H. unfold onmessage. rewrite H. simpl.
  run_handler.
  destruct (State.isPlaying (rendered c)), (videoRef w); split; reflexivity.
Qed.

Lemma onmessage_Stop (json : Message) :
  Command json = Some "Stop" ->
  Handler.trace (onmessage c json w)
  = (Handler.trace (stopPlayback c w)
     ++ (if router_canGoBack w then [router_back] else []))%list
  /\ state (Handler.store (onmessage c json w))
     = state (Handler.store (stopPlayback c w)).
Proof.
  intros H. unfold onmessage. rewrite H.
  unfold Handler.bind, Handler.get, Handler.trace, Handler.store. simpl.
  destruct (router_canGoBack w); split; reflexivity.
Qed.

Lemma onmessage_Mute (json : Message) :
  Command json = Some "Mute" ->
  onmessage c json w = setVolume 0 w
  /\ State.volume (state (Handler.store (onmessage c json w))) = Some 0%float.
Proof.
  intros H. unfold onmessage. rewrite H. simpl. run_handler.
  destruct (videoRef w); split; reflexivity.
Qed.

Lemma onmessage_Unmute (json : Message) :
  Command json = Some "Unmute" ->
  onmessage c json w = setVolume (JS.orNumber (previousVolume w) 20) w.
Proof.
  intros H. unfold onmessage. rewrite H. simpl. run_handler.
  destruct (videoRef w); reflexivity.
Qed.

Lemma onmessage_DisplayMessage (json : Message) :
  (forall name, In name ["PlayPause"; "Stop"; "Mute"; "Unmute"; "SetVolume"] ->
                Command json <> Some name) ->
  Name json = Some "DisplayMessage" ->
  onmessage c json w
  = (tt, w, [Alert_alert (Arguments_Header json) (Arguments_Text json)]).
Proof.
  intros Hc Hn. unfold onmessage.
  rewrite !(proj2 (strictEq_false _ _)) by (apply Hc; simpl; auto 6).
  now rewrite Hn.
Qed.

Lemma onmessage_ignored (json : Message) :
  (forall name, In name ["PlayPause"; "Stop"; "Mute"; "Unmute"] ->
                Command json <> Some name) ->
  Command json = Some "SetVolume" \/ Name json <> Some "DisplayMessage" ->
  onmessage c json w = (tt, w, []).
Proof.
  intros Hc Hn. unfold onmessage.
  rewrite !(proj2 (strictEq_false (Command json) _))
    by (apply Hc; simpl; auto 6).
  destruct (JS.strictEq (Command json) "SetVolume") eqn:E; [reflexivity|].
  destruct Hn as [Hn|Hn].
  - apply strictEq_true in Hn. congruence.
  - now rewrite (proj2 (strictEq_false _ _) Hn).
Qed.

(** [setVolume] never records the volume it replaces. *)
Lemma setVolume_previousVolume (newVolume : float) :
  previousVolume (Handler.store (setVolume newVolume w)) = None
  /\ State.volume (state (Handler.store (setVolume newVolume w)))
     = Some newVolume.
Proof. run_handler. destruct (videoRef w); now split. Qed.

(** No handler of a message ever sets [previousVolume.current] to a number. *)
Lemma onmessage_previousVolume (json : Message) :
  previousVolume w = None ->
  previousVolume (Handler.store (onmessage c json w)) = None.
Proof.
  intros H. unfold onmessage.
  repeat match goal with
         | |- context [if JS.strictEq ?x ?l then _ else _] =>
             destruct (JS.strictEq x l)
         end;
    try destruct (State.isPlaying (rendered c));
    run_handler;
    repeat match goal with
           | |- context [if ?b then _ else _] => destruct b; simpl
           end;
    try exact H; reflexivity.
Qed.

(** So from a world where the ref is still unset, "Unmute" sets 20. *)
Lemma onmessage_Unmute_20 (json : Message) :
  Command json = Some "Unmute" ->
  previousVolume w = None ->
  State.volume (state (Handler.store (onmessage c json w))) = Some 20%float.
Proof.
  intros H Hp. rewrite (onmessage_Unmute json H), Hp.
  apply (setVolume_previousVolume 20).
Qed.

End RemoteCommands.

(** C6.  That "Unmute" restores the last-known volume does not hold of the
    code.  After [setVolume(50)], a "Mute" command sets the
    volume to 0 and the following "Unmute" sets it to 20, not back to 50:
    the ref that should remember the old volume is still null.  The same
    happens when "Mute" arrives twice before the "Unmute". *)
Theorem C6_unmute_sets_20_not_the_muted_volume :
  let c := Platform.closure Platform.idle in
  let w1 := Handler.store (Provider.setVolume 50 Platform.idle) in
  let muted := Provider.onmessage c (Platform.command "Mute") w1 in
  let unmuted :=
    Provider.onmessage c (Platform.command "Unmute") (Handler.store muted) in
  let mutedTwice :=
    Provider.onmessage c (Platform.command "Mute") (Handler.store muted) in
  let unmutedLate :=
    Provider.onmessage c (Platform.command "Unmute")
      (Handler.store mutedTwice) in
  Provider.State.volume (Provider.state w1) = Some 50%float
  /\ Provider.State.volume (Provider.state (Handler.store muted))
     = Some 0%float
  /\ Provider.previousVolume (Handler.store muted) = None
  /\ Provider.State.volume (Provider.state (Handler.store unmuted))
     = Some 20%float
  /\ Handler.trace unmuted = [Provider.videoRef_setVolume 20]
  /\ Provider.State.volume (Provider.state (Handler.store unmutedLate))
     = Some 20%float.
Proof. repeat split. Qed.

(** The "PlayPause" command reads [isPlaying] from the handler's closure.
    A first command while playing pauses; the render that follows changes
    none of the handler's dependencies, so the same handler stays in force,
    and a second command pauses again instead of resuming. *)
Lemma onmessage_PlayPause_twice :
  let c := Platform.closure Platform.playing in
  let first := Provider.onmessage c (Platform.command "PlayPause")
                 Platform.playing in
  let next := Platform.closure (Handler.store first) in
  let installed := Provider.onmessage_after_render true c c next in
  let second := Provider.onmessage installed (Platform.command "PlayPause")
                  (Handler.store first) in
  Provider.State.isPlaying (Provider.state Platform.playing) = true
  /\ Provider.State.isPlaying (Provider.state (Handler.store first)) = false
  /\ Provider.State.isPlaying (Provider.rendered next) = false
  /\ installed = c
  /\ Provider.State.isPlaying (Provider.state (Handler.store second)) = false
  /\ Handler.trace second
     = [Provider.videoRef_pause;
        Provider.reportPlaybackProgress
          (Provider.ProgressReport.mk (Some Platform.api0) (Some "1")
             900000000 (Some "sess") true)].
Proof. repeat split. Qed.

(* ===================================================================== *)
(** ** Ticks and seeking *)
(* ===================================================================== *)

(** C7.  One second is 10,000,000 ticks in both directions.  A progress
    event at [t] seconds that passes the guards of [_onProgress] (a
    [PlaySessionId], an item id, [t] not 0) is reported exactly once, with
    [positionTicks = t * 10000000], and that product is what is stored as
    [progressTicks]; an event that does not pass them is not reported and
    stores nothing, so every report there is carries [t * 10000000].
    Completing a scrub at slider value [v] (in ticks) seeks the video
    element, through [videoRef.current?.seek], to [v / 10000000] seconds. *)
Theorem C7_ten_million_ticks_per_second (c : Provider.Closure)
  (data : Provider.OnProgressData) (w : Provider.World)
  (value : float) (a : Player.App) :
  let ticks := (Provider.currentTime data * 10000000)%float in
  let sessionId :=
    Provider.session_PlaySessionId (Provider.State.session (Provider.rendered c)) in
  let itemId :=
    Provider.item_Id (Provider.State.currentlyPlaying (Provider.rendered c)) in
  let skipped :=
    Provider.not_ sessionId || Provider.not_ itemId
    || PrimFloat.eqb (Provider.currentTime data) 0 in
  Handler.trace (Provider._onProgress c data w)
  = (if skipped then []
     else [Provider.reportPlaybackProgress
             {| Provider.ProgressReport.api := Provider.api c;
                Provider.ProgressReport.itemId := itemId;
                Provider.ProgressReport.positionTicks := ticks;
                Provider.ProgressReport.sessionId := sessionId;
                Provider.ProgressReport.IsPaused :=
                  negb (Provider.State.isPlaying (Provider.rendered c)) |}])
  /\ Provider.State.progressTicks
       (Provider.state (Handler.store (Provider._onProgress c data w)))
     = (if skipped then Provider.State.progressTicks (Provider.state w)
        else Some ticks)
  /\ (forall r,
        In (Provider.reportPlaybackProgress r)
           (Handler.trace (Provider._onProgress c data w)) ->
        Provider.ProgressReport.positionTicks r = ticks)
  /\ (Handler.trace (Provider._onProgress c data w) <> [] ->
      Provider.State.progressTicks
        (Provider.state (Handler.store (Provider._onProgress c data w)))
      = Some ticks)
  /\ Handler.trace (Player.handleSliderComplete value a)
     = if Provider.videoRef (Player.provider a)
       then [Provider.videoRef_seek (value / 10000000)%float]
       else [].
Proof.
  intros ticks sessionId itemId skipped. subst ticks sessionId itemId skipped.
  repeat split.
  - unfold Provider._onProgress. now destruct (_ || _).
  - unfold Provider._onProgress. now destruct (_ || _).
  - intros r. unfold Provider._onProgress.
    destruct (_ || _); simpl; [tauto|].
    intros [[= <-]|[]]. reflexivity.
  - unfold Provider._onProgress.
    destruct (_ || _); simpl; [congruence | reflexivity].
  - unfold Player.handleSliderComplete. run_handler.
    now destruct (Provider.videoRef (Player.provider a)).
Qed.

Section PlayerProps.

Variable secondsToTicks : float -> float.

(** C8.  A scrub drag starts seeking mode.  While it is on, a progress event
    of the video changes nothing (slider progress, cache progress and both
    buffering flags keep their values) and neither reports nor parks a
    report.  When the drag completes, the slider takes the value, seeking
    mode ends, and exactly one seek is issued to the player, through
    [videoRef.current?.seek] (so none if no player is mounted). *)
Theorem C8_seeking_suspends_progress (data : Provider.OnProgressData)
  (value : float) (a : Player.App) :
  Player.isSeeking (Player.player (Handler.store (Player.handleSliderStart a)))
  = true
  /\ (Player.isSeeking (Player.player a) = true ->
      Player.handleVideoProgress secondsToTicks data a = (tt, a, []))
  /\ (let done := Player.handleSliderComplete value a in
      Handler.trace done
      = (if Provider.videoRef (Player.provider a)
         then [Provider.videoRef_seek (value / 10000000)%float]
         else [])
      /\ Player.isSeeking (Player.player (Handler.store done)) = false
      /\ Player.progress (Player.player (Handler.store done)) = value
      /\ Player.provider (Handler.store done) = Player.provider a).
Proof.
  repeat split.
  - intros H. unfold Player.handleVideoProgress, Handler.bind, Handler.get.
    now rewrite H.
  - unfold Player.handleSliderComplete. run_handler.
    now destruct (Provider.videoRef (Player.provider a)).
  - unfold Player.handleSliderComplete. run_handler.
    now destruct (Provider.videoRef (Player.provider a)).
  - unfold Player.handleSliderComplete. run_handler.
    now destruct (Provider.videoRef (Player.provider a)).
  - unfold Player.handleSliderComplete. run_handler.
    now destruct (Provider.videoRef (Player.provider a)).
Qed.

End PlayerProps.

Example ticks_of_a_minute_and_a_half :
  (90 * 10000000)%float = 900000000%float
  /\ (900000000 / 10000000)%float = 90%float.
Proof. split; reflexivity. Qed.

Example scrub_to_a_minute_and_a_half :
  Handler.trace
    (Player.handleSliderComplete 900000000%float
       (Player.mkApp Platform.playing
          (Player.mkState true 0%float 0%float 0%float false)))
  = [Provider.videoRef_seek 90].
Proof. reflexivity. Qed.

Lemma C7_witness :
  let playing11 :=
    Player.mkApp Platform.playing
      (Player.mkState true 0%float 0%float 0%float false) in
  Handler.trace
    (Provider._onProgress (Platform.closure Platform.playing)
       (Provider.mkOnProgressData 91.5 120 120) Platform.playing)
  = [Provider.reportPlaybackProgress
       (Provider.ProgressReport.mk (Some Platform.api0) (Some "1")
          915000000 (Some "sess") false)]
  /\ Provider.State.progressTicks
       (Provider.state
          (Handler.store
             (Provider._onProgress (Platform.closure Platform.playing)
                (Provider.mkOnProgressData 91.5 120 120) Platform.playing)))
     = Some 915000000%float
  /\ Handler.trace (Player.handleSliderComplete 900000000%float playing11)
     = [Provider.videoRef_seek 90].
Proof.
  intros playing11.
  destruct (C7_ten_million_ticks_per_second
              (Platform.closure Platform.playing)
              (Provider.mkOnProgressData 91.5 120 120)
              Platform.playing 900000000%float playing11)
    as (Hreport & Hstored & _ & _ & Hseek).
  split; [exact Hreport | split; [exact Hstored | exact Hseek]].
Defined.

Lemma C8_witness :
  let seeking :=
    Player.mkApp Platform.playing
      (Player.mkState true 900000000%float 1200000000%float 36000000000%float false) in
  Player.isSeeking (Player.player seeking) = true
  /\ Player.handleVideoProgress (fun s => (s * 10000000)%float)
       (Provider.mkOnProgressData 91.5 120 120) seeking
     = (tt, seeking, []).
Proof.
  split; [reflexivity|].
  exact (proj1 (proj2 (C8_seeking_suspends_progress
                         (fun s => (s * 10000000)%float)
                         (Provider.mkOnProgressData 91.5 120 120) 0%float
                         (Player.mkApp Platform.playing
                            (Player.mkState true 900000000%float 1200000000%float
                               36000000000%float false))))
           eq_refl).
Defined.

(* ===================================================================== *)
(** ** Further properties of getStreamUrl *)
(* ===================================================================== *)

Section StreamUrlMore.

Context {DeviceProfile Headers : Type}.
Variable ios : DeviceProfile.
Variable getAuthHeaders : Api.t -> Headers.
Variable URLSearchParams_toString : list (string * string) -> string.

Local Abbreviation getStreamUrl :=
  (StreamUrl.getStreamUrl DeviceProfile ios Headers getAuthHeaders
     URLSearchParams_toString).
Local Abbreviation selectUrl := (StreamUrl.selectUrl URLSearchParams_toString).
Local Abbreviation Args := (StreamUrl.Args DeviceProfile).

(** How a call ends once it is past the guard, whatever the answer. *)
Lemma completion_after_request (args : Args) (response : StreamUrl.AxiosResult) :
  StreamUrl.requests (getStreamUrl args response) <> [] ->
  StreamUrl.completion (getStreamUrl args response) <> StreamUrl.Return None.
Proof.
  unfold StreamUrl.getStreamUrl.
  destruct (StreamUrl.api args) as [a|]; [|now intros []].
  destruct (JS.truthy (StreamUrl.userId args)) as [u|]; [|now intros []].
  destruct (StreamUrl.item args) as [it|]; [|now intros []].
  destruct (JS.truthy (StreamUrl.itemId_of (Some it))) as [i|]; [|now intros []].
  destruct (JS.truthy (StreamUrl.mediaSourceId args)) as [m|]; [|now intros []].
  intros _. simpl.
  destruct response as [|[sources|]]; try discriminate.
  destruct (StreamUrl.findSource m sources); try discriminate.
  destruct (JS.truthy (PlaybackInfoResponse.PlaySessionId _)); try discriminate.
  destruct (JS.truthy (selectUrl _ _ _ _ _ _ _ _ _)); discriminate.
Qed.

(** The request goes out exactly when [api] is set and [userId], [item.Id]
    and [mediaSourceId] are non-empty strings; the call returns null exactly
    when it does not go out; there is never a second request; and the
    request does not depend on the answer. *)
Theorem getStreamUrl_request_exactly_past_guard (args : Args)
  (response : StreamUrl.AxiosResult) :
  let run := getStreamUrl args response in
  (StreamUrl.requests run = []
   <-> StreamUrl.api args = None
       \/ JS.truthy (StreamUrl.userId args) = None
       \/ JS.truthy (StreamUrl.itemId_of (StreamUrl.item args)) = None
       \/ JS.truthy (StreamUrl.mediaSourceId args) = None)
  /\ (StreamUrl.requests run = []
      <-> StreamUrl.completion run = StreamUrl.Return None)
  /\ (List.length (StreamUrl.requests run) <= 1)%nat
  /\ (forall response',
        StreamUrl.requests (getStreamUrl args response')
        = StreamUrl.requests run).
Proof.
  intros run.
  pose proof (completion_after_request args response) as Hc. fold run in Hc.
  subst run. revert Hc. unfold StreamUrl.getStreamUrl.
  destruct (StreamUrl.api args) as [a|];
    [|intros _; repeat split; auto].
  destruct (JS.truthy (StreamUrl.userId args)) as [u|];
    [|intros _; repeat split; auto].
  destruct (StreamUrl.item args) as [it|];
    [|intros _; repeat split; auto 6].
  destruct (JS.truthy (StreamUrl.itemId_of (Some it))) as [i|];
    [|intros _; repeat split; auto 6].
  destruct (JS.truthy (StreamUrl.mediaSourceId args)) as [m|];
    [|intros _; repeat split; auto 6].
  simpl. intros Hc. repeat split; auto; try discriminate.
  - intros [H|[H|[H|H]]]; discriminate.
  - intros H. exfalso. apply Hc; [discriminate | exact H].
Qed.

(** What [selectUrl] forms lies under the API base path. *)
Lemma selectUrl_under_base_path a it itemId userId sid ms sub audio force url :
  selectUrl a it itemId userId sid ms sub audio force = Some url ->
  exists path, url = Api.basePath a ++ path /\ path <> "".
Proof.
  unfold StreamUrl.selectUrl.
  destruct (_ || _).
  - destruct (JS.strictEq _ "Video").
    + intros [= <-]. eexists. split; [reflexivity|].
      unfold StreamUrl.directVideoPath. discriminate.
    + destruct (JS.strictEq _ "Audio"); [|discriminate].
      intros [= <-]. eexists. split; [reflexivity | discriminate].
  - destruct (JS.truthy (MediaSourceInfo.TranscodingUrl ms)) as [t|] eqn:E;
      [|discriminate].
    intros [= <-]. exists t. split; [reflexivity|].
    now apply truthy_Some in E.
Qed.

(** Every URL the function returns is the API base path followed by a
    non-empty path, whichever branch formed it. *)
Theorem getStreamUrl_url_under_base_path (args : Args)
  (response : StreamUrl.AxiosResult) (url : string) :
  StreamUrl.completion (getStreamUrl args response)
  = StreamUrl.Return (Some url) ->
  exists a path,
    StreamUrl.api args = Some a /\ url = Api.basePath a ++ path /\ path <> "".
Proof.
  unfold StreamUrl.getStreamUrl.
  destruct (StreamUrl.api args) as [a|]; [|discriminate].
  destruct (JS.truthy (StreamUrl.userId args)) as [u|]; [|discriminate].
  destruct (StreamUrl.item args) as [it|]; [|discriminate].
  destruct (JS.truthy (StreamUrl.itemId_of (Some it))) as [i|]; [|discriminate].
  destruct (JS.truthy (StreamUrl.mediaSourceId args)) as [m|]; [|discriminate].
  simpl.
  destruct response as [|[sources|]]; try discriminate.
  destruct (StreamUrl.findSource m sources) as [ms|]; try discriminate.
  destruct (JS.truthy (PlaybackInfoResponse.PlaySessionId _)) as [sid|];
    try discriminate.
  destruct (selectUrl a it i u sid ms _ _ _) as [u'|] eqn:Hsel;
    [|discriminate].
  rewrite (selectUrl_truthy _ _ _ _ _ _ _ _ _ _ _ Hsel).
  intros [= <-]. exists a.
  destruct (selectUrl_under_base_path _ _ _ _ _ _ _ _ _ _ Hsel) as (p & ? & ?).
  now exists p.
Qed.

(** With [forceDirectPlay = true] a video item gets the direct static-stream
    URL whatever the source says: [SupportsDirectPlay] and [TranscodingUrl]
    are not consulted. *)
Theorem getStreamUrl_forced_video (args : Args) (a : Api.t) (userId : string)
  (it : BaseItemDto.t) (itemId mediaSourceId : string)
  (sources : list MediaSourceInfo.t) (mediaSource : MediaSourceInfo.t)
  (playSessionId : string) :
  StreamUrl.pastGuard args a userId it itemId mediaSourceId ->
  StreamUrl.findSource mediaSourceId sources = Some mediaSource ->
  JS.truthy (PlaybackInfoResponse.PlaySessionId (StreamUrl.sessionData args))
  = Some playSessionId ->
  BaseItemDto.MediaType it = Some "Video" ->
  StreamUrl.forceDirectPlay args = Some true ->
  StreamUrl.completion (getStreamUrl args (StreamUrl.Resolved (Some sources)))
  = StreamUrl.Return
      (Some (StreamUrl.directVideoUrl itemId (Some playSessionId)
               (Some mediaSourceId) (StreamUrl.subtitleStreamIndex args)
               (JS.withDefault (StreamUrl.audioStreamIndex args) 0%Z) a)).
Proof.
  intros G Hfind Hsid Hvideo Hforce.
  rewrite (getStreamUrl_past_guard _ _ _ _ _ _ _ _ _ sources G), Hfind, Hsid.
  match goal with
  | |- context [selectUrl ?a ?b ?c ?d ?e ?f ?g ?h ?i] =>
      assert (Hsel : selectUrl a b c d e f g h i
                     = Some (StreamUrl.directVideoUrl itemId (Some playSessionId)
                               (Some mediaSourceId)
                               (StreamUrl.subtitleStreamIndex args)
                               (JS.withDefault (StreamUrl.audioStreamIndex args)
                                  0%Z) a))
  end.
  { unfold StreamUrl.selectUrl. rewrite Hforce, Hvideo. simpl.
    rewrite orb_true_r, (findSource_Id _ _ _ Hfind). reflexivity. }
  rewrite Hsel, (selectUrl_truthy _ _ _ _ _ _ _ _ _ _ _ Hsel). reflexivity.
Qed.

(** For an audio item under direct play (supported or forced) the URL is the
    universal-audio endpoint: it names the item, the user, the device, the
    token and the session, and nothing of the media source, of the stream
    indices or of the start time (its [StartTimeTicks] is always 0). *)
Theorem getStreamUrl_universal_audio (args : Args) (a : Api.t)
  (userId : string) (it : BaseItemDto.t) (itemId mediaSourceId : string)
  (sources : list MediaSourceInfo.t) (mediaSource : MediaSourceInfo.t)
  (playSessionId : string) :
  StreamUrl.pastGuard args a userId it itemId mediaSourceId ->
  StreamUrl.findSource mediaSourceId sources = Some mediaSource ->
  JS.truthy (PlaybackInfoResponse.PlaySessionId (StreamUrl.sessionData args))
  = Some playSessionId ->
  BaseItemDto.MediaType it = Some "Audio" ->
  StreamUrl.directPlay args mediaSource ->
  StreamUrl.completion (getStreamUrl args (StreamUrl.Resolved (Some sources)))
  = StreamUrl.Return
      (Some (Api.basePath a ++ "/Audio/" ++ itemId ++ "/universal?"
             ++ URLSearchParams_toString
                  [ ("UserId", userId);
                    ("DeviceId", Api.deviceInfo_id a);
                    ("MaxStreamingBitrate", "140000000");
                    ("Container",
                     "opus,webm|opus,mp3,aac,m4a|aac,m4b|aac,flac,webma,webm|webma,wav,ogg");
                    ("TranscodingContainer", "mp4");
                    ("TranscodingProtocol", "hls");
                    ("AudioCodec", "aac");
                    ("api_key", Api.accessToken a);
                    ("PlaySessionId", playSessionId);
                    ("StartTimeTicks", "0");
                    ("EnableRedirection", "true");
                    ("EnableRemoteMedia", "false") ])).
Proof.
  intros G Hfind Hsid Haudio Hdirect.
  rewrite (getStreamUrl_past_guard _ _ _ _ _ _ _ _ _ sources G), Hfind, Hsid.
  apply directPlay_test in Hdirect.
  match goal with
  | |- context [selectUrl ?a ?b ?c ?d ?e ?f ?g ?h ?i] =>
      assert (Hsel : selectUrl a b c d e f g h i
                     = Some (StreamUrl.universalAudioUrl
                               URLSearchParams_toString itemId userId
                               playSessionId a))
  end.
  { unfold StreamUrl.selectUrl. rewrite Hdirect, Haudio. reflexivity. }
  rewrite Hsel, (selectUrl_truthy _ _ _ _ _ _ _ _ _ _ _ Hsel). reflexivity.
Qed.

(** When several sources of the answer carry the requested id, the first
    one decides; sources without that id, and everything after the first
    match, have no influence on the run. *)
Theorem getStreamUrl_first_matching_source (args : Args)
  (mediaSourceId : string) (before after : list MediaSourceInfo.t)
  (mediaSource : MediaSourceInfo.t) :
  StreamUrl.mediaSourceId args = Some mediaSourceId ->
  (forall source, In source before ->
                  MediaSourceInfo.Id source <> Some mediaSourceId) ->
  MediaSourceInfo.Id mediaSource = Some mediaSourceId ->
  getStreamUrl args
    (StreamUrl.Resolved (Some (before ++ mediaSource :: after)%list))
  = getStreamUrl args (StreamUrl.Resolved (Some [mediaSource])).
Proof.
  intros Hm Hbefore Hid.
  assert (Hfind : forall rest,
            StreamUrl.findSource mediaSourceId (before ++ mediaSource :: rest)%list
            = Some mediaSource).
  { intros rest. unfold StreamUrl.findSource.
    induction before as [|s l IH]; simpl.
    - now rewrite (proj2 (strictEq_true _ _) Hid).
    - rewrite (proj2 (strictEq_false _ _) (Hbefore s (or_introl eq_refl))).
      apply IH. intros source Hin. apply Hbefore. now right. }
  unfold StreamUrl.getStreamUrl. rewrite Hm.
  destruct (StreamUrl.api args) as [a|]; [|reflexivity].
  destruct (JS.truthy (StreamUrl.userId args)) as [u|]; [|reflexivity].
  destruct (StreamUrl.item args) as [it|]; [|reflexivity].
  destruct (JS.truthy (StreamUrl.itemId_of (Some it))) as [i|]; [|reflexivity].
  destruct (JS.truthy (Some mediaSourceId)) as [m|] eqn:Em; [|reflexivity].
  apply truthy_Some in Em as [[= <-] _].
  rewrite (Hfind after).
  assert (H1 : StreamUrl.findSource mediaSourceId [mediaSource]
               = Some mediaSource).
  { unfold StreamUrl.findSource. simpl.
    now rewrite (proj2 (strictEq_true _ _) Hid). }
  now rewrite H1.
Qed.

End StreamUrlMore.

(* ===================================================================== *)
(** ** Properties of the remote-control socket *)
(* ===================================================================== *)

(** *** The string methods *)

Lemma prefix_app (p s : string) : prefix p (p ++ s) = true.
Proof.
  induction p as [|c p IH]; simpl; [now destruct s|].
  destruct (ascii_dec c c) as [_|N]; [exact IH | now contradiction N].
Qed.

Lemma prefix_app_l (p q s : string) :
  prefix (p ++ q) s = true -> prefix p s = true.
Proof.
  revert s. induction p as [|c p IH]; intros s H; [now destruct s|].
  destruct s as [|d s]; simpl in *; [discriminate|].
  destruct (ascii_dec c d); [now apply IH | discriminate].
Qed.

Lemma slice_app (p s : string) : JSString.slice (String.length p) (p ++ s) = s.
Proof. induction p as [|c p IH]; simpl; [now destruct s | exact IH]. Qed.

Lemma includes_app_r (p s t : string) :
  JSString.includes p t = true -> JSString.includes p (s ++ t) = true.
Proof.
  intros H. induction s as [|c s IH]; simpl; [exact H|].
  rewrite IH. apply orb_true_r.
Qed.

(** A string that does not hold a pattern does not hold a longer one. *)
Lemma includes_longer (p q s : string) :
  JSString.includes p s = false -> JSString.includes (p ++ q) s = false.
Proof.
  induction s as [|c s IH]; intros H.
  - destruct p; [discriminate H | reflexivity].
  - cbn [JSString.includes] in *. apply orb_false_iff in H as [H1 H2].
    rewrite (IH H2), orb_false_r.
    destruct (prefix (p ++ q) (String c s)) eqn:E; [|reflexivity].
    apply prefix_app_l in E. congruence.
Qed.

(** Replacing a pattern the string does not hold leaves the string. *)
Lemma replace_absent (p r s : string) :
  JSString.includes p s = false -> JSString.replace p r s = s.
Proof.
  induction s as [|c s IH]; intros H.
  - destruct p; [discriminate H | reflexivity].
  - cbn [JSString.includes JSString.replace] in *.
    apply orb_false_iff in H as [H1 H2].
    now rewrite H1, (IH H2).
Qed.

(** Replacing a pattern the string starts with removes it there. *)
Lemma replace_prefix (p r s : string) :
  JSString.replace p r (p ++ s) = r ++ s.
Proof.
  destruct (p ++ s) as [|c t] eqn:E.
  - destruct p; [|discriminate E]. simpl in E. subst s.
    simpl. now rewrite append_nil_r.
  - cbn [JSString.replace]. rewrite <- E, prefix_app, slice_app. reflexivity.
Qed.

(** *** The address *)

(** For a base path [https://host] the socket is opened on
    [wss://host/socket?api_key=...&deviceId=...], provided there is a device
    id and an access token and the host part holds no [http://] of its own. *)
Theorem socket_url_of_https_server (a : Api.t) (deviceId host : string) :
  Api.basePath a = "https://" ++ host ->
  JSString.includes "http://" host = false ->
  deviceId <> "" ->
  Api.accessToken a <> "" ->
  Socket.connect (Some deviceId) (Some a)
  = Some ("wss://" ++ host ++ "/socket?api_key=" ++ Api.accessToken a
          ++ "&deviceId=" ++ deviceId).
Proof.
  intros Hb Hh Hd Ht. unfold Socket.connect.
  rewrite (proj2 (truthy_Some (Some deviceId) deviceId)) by now split.
  rewrite (proj2 (truthy_Some (Some (Api.accessToken a)) (Api.accessToken a)))
    by now split.
  unfold Socket.url, Socket.protocol. rewrite Hb.
  assert (H1 : JSString.includes "https" ("https://" ++ host) = true)
    by reflexivity.
  rewrite H1, (replace_prefix "https://" "" host).
  change ("" ++ host) with host.
  rewrite (replace_absent _ _ _ Hh). reflexivity.
Qed.

(** For a base path [http://host] whose host does not hold [https], the
    socket is opened on [ws://host/socket?...]. *)
Theorem socket_url_of_http_server (a : Api.t) (deviceId host : string) :
  Api.basePath a = "http://" ++ host ->
  JSString.includes "https" host = false ->
  deviceId <> "" ->
  Api.accessToken a <> "" ->
  Socket.connect (Some deviceId) (Some a)
  = Some ("ws://" ++ host ++ "/socket?api_key=" ++ Api.accessToken a
          ++ "&deviceId=" ++ deviceId).
Proof.
  intros Hb Hh Hd Ht. unfold Socket.connect.
  rewrite (proj2 (truthy_Some (Some deviceId) deviceId)) by now split.
  rewrite (proj2 (truthy_Some (Some (Api.accessToken a)) (Api.accessToken a)))
    by now split.
  unfold Socket.url, Socket.protocol. rewrite Hb.
  assert (H1 : JSString.includes "https" ("http://" ++ host) = false).
  { simpl. now rewrite Hh. }
  rewrite H1.
  rewrite (replace_absent "https://" "" ("http://" ++ host))
    by exact (includes_longer "https" "://" _ H1).
  rewrite (replace_prefix "http://" "" host). reflexivity.
Qed.

(** The protocol is chosen by a substring test on the whole base path: a
    plain [http://] server whose host or path holds [https] anywhere is
    dialled over [wss]. *)
Theorem socket_wss_for_https_anywhere (a : Api.t) (deviceId rest : string) :
  Api.basePath a = "http://" ++ rest ->
  JSString.includes "https" rest = true ->
  prefix "wss://" (Socket.url a deviceId) = true.
Proof.
  intros Hb Hr. unfold Socket.url, Socket.protocol.
  rewrite Hb, (includes_app_r "https" "http://" rest Hr).
  apply (prefix_app "wss://").
Qed.

(** No socket is opened without a device id, an api or an access token. *)
Lemma socket_connect_None (deviceId : option string) (api : option Api.t) :
  Socket.connect deviceId api = None
  <-> JS.truthy deviceId = None \/ api = None
      \/ exists a, api = Some a /\ Api.accessToken a = "".
Proof.
  unfold Socket.connect.
  destruct (JS.truthy deviceId) as [d|]; [|split; auto].
  destruct api as [a|]; [|split; auto].
  destruct (JS.truthy (Some (Api.accessToken a))) as [t|] eqn:E.
  - split; [discriminate|]. intros [H|[H|(a' & [= <-] & H)]]; try discriminate.
    rewrite H in E. discriminate.
  - split; auto. intros _. right; right. exists a. split; [reflexivity|].
    apply truthy_None in E as [E|[= E]]; [discriminate | exact E].
Qed.

(** *** Keep-alive *)

Lemma run_app (s : Socket.Connection) (l1 l2 : list Socket.Event) :
  Socket.run s (l1 ++ l2)
  = (fst (Socket.run (fst (Socket.run s l1)) l2),
     (snd (Socket.run s l1) ++ snd (Socket.run (fst (Socket.run s l1)) l2))%list).
Proof.
  revert s. induction l1 as [|e l1 IH]; intros s; simpl.
  - now destruct (Socket.run s l2).
  - destruct (Socket.deliver s e) as [s1 t1]. rewrite IH.
    destruct (Socket.run s1 l1) as [s2 t2]. simpl.
    destruct (Socket.run s2 l2) as [s3 t3]. simpl.
    now rewrite app_assoc.
Qed.

Lemma timer_set_deliver (s : Socket.Connection) (e : Socket.Event) :
  Socket.timer_set s -> Socket.timer_set (fst (Socket.deliver s e)).
Proof.
  destruct s as [ic kai tr rs]. unfold Socket.timer_set. simpl. intros [H1 H2].
  destruct e, kai, tr, rs; simpl; intuition congruence.
Qed.

Lemma timer_set_run (events : list Socket.Event) (s : Socket.Connection) :
  Socket.timer_set s -> Socket.timer_set (fst (Socket.run s events)).
Proof.
  revert s. induction events as [|e l IH]; intros s H; simpl; [exact H|].
  pose proof (timer_set_deliver s e H) as H1.
  destruct (Socket.deliver s e) as [s1 t1]. simpl in H1.
  specialize (IH s1 H1). now destruct (Socket.run s1 l).
Qed.

(** Once the timer is cleared on a socket past connecting, nothing is sent
    any more. *)
Lemma quiet_run (events : list Socket.Event) (s : Socket.Connection) :
  Socket.timerRuns s = false ->
  Socket.readyState s <> Socket.CONNECTING ->
  snd (Socket.run s events) = [].
Proof.
  revert s. induction events as [|e l IH]; intros s Ht Hr; simpl; [reflexivity|].
  assert (H : snd (Socket.deliver s e) = []
              /\ Socket.timerRuns (fst (Socket.deliver s e)) = false
              /\ Socket.readyState (fst (Socket.deliver s e))
                 <> Socket.CONNECTING).
  { destruct s as [ic kai tr rs]. simpl in Ht, Hr. subst tr.
    destruct e, kai, rs; simpl; intuition congruence. }
  destruct (Socket.deliver s e) as [s1 t1]. simpl in H.
  destruct H as (-> & H1 & H2). specialize (IH s1 H1 H2).
  now destruct (Socket.run s1 l).
Qed.

(** While the socket is open every tick of the timer sends one keep-alive
    frame; after the socket has closed, or the effect was torn down, no
    event whatever makes the effect send another. *)
Theorem keep_alive_stops_with_the_socket (isConnected : bool)
  (n : nat) (before after : list Socket.Event) (last : Socket.Event) :
  snd (Socket.run (Socket.opening isConnected)
         (Socket.Opened :: repeat Socket.Tick n))
  = repeat Socket.KeepAlive n
  /\ (last = Socket.Closed \/ last = Socket.TornDown ->
      snd (Socket.run
             (fst (Socket.run (Socket.opening isConnected)
                     (before ++ [last])))
             after)
      = []).
Proof.
  split.
  - simpl.
    assert (H : forall s, Socket.timerRuns s = true ->
                          Socket.readyState s = Socket.OPEN ->
                          Socket.run s (repeat Socket.Tick n)
                          = (s, repeat Socket.KeepAlive n)).
    { intros s Ht Hr. induction n as [|k IH]; simpl; [reflexivity|].
      rewrite Ht. unfold Socket.keepAlive. rewrite Hr. simpl.
      now rewrite IH. }
    now rewrite H.
  - intros Hl. rewrite run_app. simpl fst.
    assert (T : Socket.timer_set (fst (Socket.run (Socket.opening isConnected) before))).
    { apply timer_set_run. split; discriminate. }
    destruct (fst (Socket.run (Socket.opening isConnected) before))
      as [ic kai tr rs].
    unfold Socket.timer_set in T. simpl in T.
    apply quiet_run; destruct Hl as [-> | ->];
      destruct kai, tr, rs; simpl; intuition congruence.
Qed.

(** Only an error event resets [isConnected]: once the socket has opened,
    the flag stays true through its closing and the effect's teardown. *)
Theorem isConnected_survives_close (isConnected : bool)
  (events : list Socket.Event) :
  ~ In Socket.Failed events ->
  Socket.isConnected
    (fst (Socket.run (Socket.opening isConnected) (Socket.Opened :: events)))
  = true.
Proof.
  intros Hn. simpl.
  assert (H : forall s, Socket.isConnected s = true ->
                        Socket.isConnected (fst (Socket.run s events)) = true).
  { induction events as [|e l IH]; intros s Hs; simpl; [exact Hs|].
    assert (H1 : Socket.isConnected (fst (Socket.deliver s e)) = true).
    { destruct s as [ic kai tr rs]. simpl in Hs. subst ic.
      destruct e; [| exfalso; apply Hn; now left | | |];
        destruct kai, tr, rs; reflexivity. }
    destruct (Socket.deliver s e) as [s1 t1]. simpl in H1.
    assert (Hl : ~ In Socket.Failed l) by (intros F; apply Hn; now right).
    specialize (IH Hl s1 H1). now destruct (Socket.run s1 l). }
  specialize (H (Socket.onopen
                   (Socket.mkConnection isConnected false false Socket.OPEN))
                eq_refl).
  now destruct (Socket.run _ events).
Qed.

(* ===================================================================== *)
(** ** Properties of the provider as a whole *)
(* ===================================================================== *)

(** Take a handler apart, one test at a time. *)
Ltac handler_cases :=
  unfold Ui.handle, Ui.fromProvider, Ui.presentFullscreenPlayer,
    Ui.dismissFullscreenPlayer, Provider.onmessage, Provider.stopPlayback,
    Provider.setCurrentlyPlayingState, Provider.onProgress_timeout,
    Provider._onProgress, Provider.setIsPlaying_timeout,
    Provider.startDownloadedFilePlayback, Provider.tryForcePlay_onPress,
    Provider.setIsPlaying, Provider.onProgress, Provider.setIsBuffering,
    Provider.setIsFullscreen, Provider.setSession,
    Provider.setCurrentlyPlaying, Provider.setProgressTicks;
  run_handler;
  repeat (match goal with
          | |- context [if ?b then _ else _] => destruct b eqn:?
          | |- context [match ?x with Some _ => _ | None => _ end] =>
              destruct x eqn:?
          end; simpl).

Section ProviderMore.

Import Provider.

(** No handler writes a number into [previousVolume.current]. *)
Lemma handle_previousVolume (c : Closure) (e : Ui.Event) (w : World) :
  previousVolume w = None ->
  previousVolume (Handler.store (Ui.handle c e w)) = None.
Proof.
  intros H. destruct e; handler_cases; try exact H; reflexivity.
Qed.

(** In every world a mounted provider can get to, [previousVolume.current]
    is still null, and so an "Unmute" command sets the volume to 20: the
    volume in force before a "Mute" is never what comes back. *)
Theorem unmute_sets_20_in_every_reachable_world (w : World) (c : Closure)
  (json : Message) :
  Ui.Reachable w ->
  Command json = Some "Unmute" ->
  previousVolume w = None
  /\ State.volume (state (Handler.store (onmessage c json w)))
     = Some 20%float.
Proof.
  intros R Hc.
  assert (P : previousVolume w = None).
  { induction R as [w (_ & H & _)|w c' e _ IH]; [exact H|].
    now apply handle_previousVolume. }
  split; [exact P|]. now apply onmessage_Unmute_20.
Qed.

(** The session changes only when [setCurrentlyPlayingState] starts an item,
    and then to the server's answer; [progressTicks] changes only when the
    parked progress event is reported, and then to that event's time in
    ticks.  No other handler touches them: stopping, or switching to no
    item, resets neither. *)
Theorem session_and_position_survive (c : Closure) (e : Ui.Event) (w : World) :
  let after := state (Handler.store (Ui.handle c e w)) in
  (State.session after = State.session (state w)
   \/ exists playing itemId userId,
        e = Ui.SetCurrentlyPlayingState (Some playing)
        /\ State.session after = server_playbackInfo w itemId userId
        /\ State.session after <> None)
  /\ (State.progressTicks after = State.progressTicks (state w)
      \/ exists data,
           e = Ui.OnProgressTimeout
           /\ onProgress_pending w = Some data
           /\ State.progressTicks after
              = Some (currentTime data * 10000000)%float).
Proof.
  destruct e; handler_cases; split; auto.
  - right. eexists. repeat split.
  - right. eexists _, _, _. repeat split; [symmetry; eassumption | discriminate].
Qed.

(** Which handler can make which call.  A session is requested from the
    server only by [setCurrentlyPlayingState] with an item; a stop is
    reported only by [stopPlayback], called directly or by a "Stop" command;
    progress is reported only by [playVideo], [pauseVideo], a "PlayPause"
    command, and the progress debounce running out. *)
Theorem calls_have_their_handlers (c : Closure) (e : Ui.Event) (w : World) :
  let trace := Handler.trace (Ui.handle c e w) in
  (forall itemId userId,
     In (Ui.provider (getPlaybackInfo itemId userId)) trace ->
     exists playing, e = Ui.SetCurrentlyPlayingState (Some playing))
  /\ (forall r,
        In (Ui.provider (reportPlaybackStopped r)) trace ->
        e = Ui.StopPlayback
        \/ exists json, e = Ui.Message json /\ Command json = Some "Stop")
  /\ (forall r,
        In (Ui.provider (reportPlaybackProgress r)) trace ->
        (exists triggerRef,
           e = Ui.PlayVideo triggerRef \/ e = Ui.PauseVideo triggerRef)
        \/ e = Ui.OnProgressTimeout
        \/ exists json,
             e = Ui.Message json /\ Command json = Some "PlayPause").
Proof.
  destruct e; handler_cases; repeat split; intros;
    repeat match goal with
           | H : _ \/ _ |- _ => destruct H as [H|H]
           | H : False |- _ => destruct H
           | H : Ui.provider _ = Ui.provider _ |- _ => discriminate H
           | H : _ = Ui.provider _ |- _ => discriminate H
           end;
    eauto 6;
    match goal with
    | H : JS.strictEq (Command ?j) ?l = true |- _ =>
        apply strictEq_true in H; eauto 6
    end.
Qed.


(** Toggling twice, each time with the closure of the render before it,
    brings the provider back to where it was; the two reports carry the same
    position and opposite pause flags. *)
Theorem play_pause_twice_restores (api : option Api.t)
  (user_Id : option string) (openInVLC : bool) (a : Player.App) :
  let c0 := render api user_Id openInVLC (Player.provider a) in
  let first := Player.handlePlayPause c0 a in
  let c1 := render api user_Id openInVLC
              (Player.provider (Handler.store first)) in
  let second := Player.handlePlayPause c1 (Handler.store first) in
  let wasPlaying := State.isPlaying (state (Player.provider a)) in
  let report flag :=
    reportPlaybackProgress
      {| ProgressReport.api := api;
         ProgressReport.itemId :=
           item_Id (State.currentlyPlaying (state (Player.provider a)));
         ProgressReport.positionTicks :=
           JS.orNumber (State.progressTicks (state (Player.provider a))) 0;
         ProgressReport.sessionId :=
           session_PlaySessionId (State.session (state (Player.provider a)));
         ProgressReport.IsPaused := flag |} in
  Handler.store second = a
  /\ State.isPlaying (state (Player.provider (Handler.store first)))
     = negb wasPlaying
  /\ filter (fun e => match e with reportPlaybackProgress _ => true
                               | _ => false end)
        (Handler.trace first ++ Handler.trace second)
     = [report wasPlaying; report (negb wasPlaying)].
Proof.
  destruct a as [[[ip ib ifs pt vol ses cp] pv vr p1 p2 back info caps] pl].
  unfold Player.handlePlayPause, render. simpl.
  destruct ip, vr; repeat split.
Qed.

End ProviderMore.

(* ===================================================================== *)
(** ** Properties of the player's handlers *)
(* ===================================================================== *)

Section TransportMore.

Variable secondsToTicks : float -> float.

(** A start that goes through. *)
Lemma setCurrentlyPlayingState_started (c : Provider.Closure)
  (playing : Provider.CurrentlyPlayingState) (w : Provider.World)
  (itemId userId : string) (a : Api.t) (res : PlaybackInfoResponse.t) :
  JS.truthy (BaseItemDto.Id (Provider.item playing)) = Some itemId ->
  JS.truthy (Provider.user_Id c) = Some userId ->
  Provider.settings_openInVLC c = false ->
  Provider.api c = Some a ->
  Provider.server_playbackInfo w itemId userId = Some res ->
  Provider.server_capabilities w = true ->
  Provider.setCurrentlyPlayingState c (Some playing) w
  = (tt,
     Provider.with_setIsPlaying_pending (Some true)
       (Provider.with_state
          (Provider.State.set_currentlyPlaying (Some playing))
          (Provider.with_state (Provider.State.set_session (Some res)) w)),
     [Provider.getPlaybackInfo itemId userId;
      Provider.postCapabilities itemId
        (PlaybackInfoResponse.PlaySessionId res)]).
Proof.
  intros Hi Hu Hv Ha Hp Hc. unfold Provider.setCurrentlyPlayingState.
  change (Provider.item_Id (Some playing))
    with (BaseItemDto.Id (Provider.item playing)).
  rewrite Hi, Hu, Hv, Ha.
  unfold Handler.bind, Handler.get, Handler.emit. simpl.
  rewrite Hp, Hc. reflexivity.
Qed.

(** When an item has just been started, the effect on [currentlyPlaying]
    puts the slider at the item's saved position and its end at the item's
    run time (0 where there is none), shows the controls and calls
    [playVideo].  The report that goes out names the new item and the new
    session, but its position is the [progressTicks] the provider held
    before: 0 on a fresh provider, the last position of the item played
    before otherwise, and not the new item's saved position. *)
Theorem start_report_carries_stored_position (c : Provider.Closure)
  (playing : Provider.CurrentlyPlayingState) (w : Provider.World)
  (itemId userId : string) (a : Api.t) (res : PlaybackInfoResponse.t)
  (p : Player.State) (controls safeArea : bool) :
  JS.truthy (BaseItemDto.Id (Provider.item playing)) = Some itemId ->
  JS.truthy (Provider.user_Id c) = Some userId ->
  Provider.settings_openInVLC c = false ->
  Provider.api c = Some a ->
  Provider.server_playbackInfo w itemId userId = Some res ->
  Provider.server_capabilities w = true ->
  let started :=
    Handler.store (Provider.setCurrentlyPlayingState c (Some playing) w) in
  let next :=
    Provider.render (Provider.api c) (Provider.user_Id c)
      (Provider.settings_openInVLC c) started in
  let r :=
    Transport.currentlyPlaying_effect next
      (Transport.mkScreen (Player.mkApp started p) controls safeArea) in
  Handler.trace r
  = ((if Provider.videoRef w then [Ui.provider Provider.videoRef_resume]
      else [])
     ++ [Ui.provider
           (Provider.reportPlaybackProgress
              {| Provider.ProgressReport.api := Some a;
                 Provider.ProgressReport.itemId := Some itemId;
                 Provider.ProgressReport.positionTicks :=
                   JS.orNumber
                     (Provider.State.progressTicks (Provider.state w)) 0;
                 Provider.ProgressReport.sessionId :=
                   PlaybackInfoResponse.PlaySessionId res;
                 Provider.ProgressReport.IsPaused := false |})])%list
  /\ Player.progress (Player.player (Transport.app (Handler.store r)))
     = JS.orNumber
         (BaseItemDto.PlaybackPositionTicks (Provider.item playing)) 0
  /\ Player.max (Player.player (Transport.app (Handler.store r)))
     = JS.orNumber (BaseItemDto.RunTimeTicks (Provider.item playing)) 0
  /\ Transport.showControls (Handler.store r) = true
  /\ Provider.State.isPlaying
       (Provider.state (Player.provider (Transport.app (Handler.store r))))
     = true.
Proof.
  intros Hi Hu Hv Ha Hp Hc started next r. subst r next started.
  rewrite (setCurrentlyPlayingState_started c playing w itemId userId a res
             Hi Hu Hv Ha Hp Hc).
  apply truthy_Some in Hi as [Hi _].
  destruct w as [s pv vr p1 p2 back info caps].
  unfold Transport.currentlyPlaying_effect, Transport.usePlayback,
    Transport.inApp, Transport.set_max, Transport.setShowControls,
    Ui.fromProvider.
  run_handler. rewrite Hi, Ha.
  destruct vr; repeat split.
Qed.

(** Progress events while nothing is being dragged: each sets both buffering
    flags to the same value and parks itself, sending nothing; when the
    debounce timer then runs out, one [_onProgress] runs, on the last event
    only; and a timer running out again finds nothing parked. *)
Theorem progress_events_collapse (c : Provider.Closure)
  (first second : Provider.OnProgressData) (a : Player.App) :
  Player.isSeeking (Player.player a) = false ->
  let events :=
    Handler.bind (Player.handleVideoProgress secondsToTicks first)
      (fun _ => Player.handleVideoProgress secondsToTicks second) a in
  let w := Player.provider (Handler.store events) in
  let fired := Provider.onProgress_timeout c w in
  Handler.trace events = []
  /\ Provider.onProgress_pending w = Some second
  /\ Player.isBuffering (Player.player (Handler.store events))
     = Provider.State.isBuffering (Provider.state w)
  /\ Handler.trace fired = Handler.trace (Provider._onProgress c second w)
  /\ Provider.state (Handler.store fired)
     = Provider.state (Handler.store (Provider._onProgress c second w))
  /\ Provider.onProgress_pending (Handler.store fired) = None
  /\ Provider.onProgress_timeout c (Handler.store fired)
     = (tt, Handler.store fired, []).
Proof.
  intros Hs events w fired. subst fired w events.
  destruct a as [[s pv vr p1 p2 back info caps] [sk pr cp mx bf]].
  simpl in Hs. subst sk.
  unfold Player.handleVideoProgress, Provider.onProgress_timeout,
    Provider._onProgress, Provider.onProgress, Provider.setIsBuffering,
    Provider.setProgressTicks, Player.set_cacheProgress,
    Player.setIsBufferingState.
  run_handler.
  repeat match goal with
         | |- context [if ?b then _ else _] => destruct b eqn:?; simpl
         end; repeat split.
Qed.

(** Progress events during a drag are lost on the player. *)
Lemma videoProgressEvents_seeking (events : list Provider.OnProgressData)
  (a : Player.App) :
  Player.isSeeking (Player.player a) = true ->
  Transport.videoProgressEvents secondsToTicks events a = (tt, a, []).
Proof.
  intros H. induction events as [|d l IH]; [reflexivity|].
  cbn [Transport.videoProgressEvents].
  unfold Handler.bind at 1.
  assert (E : Player.handleVideoProgress secondsToTicks d a = (tt, a, [])).
  { unfold Player.handleVideoProgress, Handler.bind, Handler.get.
    now rewrite H. }
  now rewrite E, IH.
Qed.

(** Whatever progress events arrive between the start of a drag and its
    end, the drag ends as if none had arrived: the same state, the same
    seek. *)
Theorem drag_ignores_progress_events (events : list Provider.OnProgressData)
  (value : float) (a : Player.App) :
  Handler.bind Player.handleSliderStart
    (fun _ =>
       Handler.bind (Transport.videoProgressEvents secondsToTicks events)
         (fun _ => Player.handleSliderComplete value)) a
  = Handler.bind Player.handleSliderStart
      (fun _ => Player.handleSliderComplete value) a.
Proof.
  unfold Handler.bind at 1 3.
  destruct (Player.handleSliderStart a) as [[u a1] t1] eqn:E.
  assert (Hs : Player.isSeeking (Player.player a1) = true).
  { revert E. unfold Player.handleSliderStart. run_handler. now intros [= <- <-]. }
  unfold Handler.bind at 1.
  rewrite (videoProgressEvents_seeking events a1 Hs).
  now destruct (Player.handleSliderComplete value a1) as [[b s2] t2].
Qed.

End TransportMore.

(** *** Skipping *)

Lemma ltb_leb (x y : float) :
  PrimFloat.ltb x y = true -> PrimFloat.leb x y = true.
Proof.
  rewrite ltb_spec, leb_spec. unfold SFltb, SFleb.
  now destruct (SFcompare _ _) as [[| |]|].
Qed.

Lemma Math_max_zero (x : float) :
  PrimFloat.is_nan (Transport.Math_max 0 x) = false ->
  PrimFloat.leb 0 (Transport.Math_max 0 x) = true
  /\ (PrimFloat.ltb 0 x = true -> Transport.Math_max 0 x = x)
  /\ (PrimFloat.ltb 0 x = false -> Transport.Math_max 0 x = 0%float).
Proof.
  unfold Transport.Math_max.
  change (PrimFloat.is_nan 0) with false. simpl orb.
  destruct (PrimFloat.is_nan x); [discriminate|].
  destruct (PrimFloat.ltb 0 x) eqn:L; intros _.
  - repeat split; [now apply ltb_leb | discriminate].
  - destruct (PrimFloat.ltb x 0); repeat split; discriminate.
Qed.

(** A skip never seeks to before the start: the position a skip button
    seeks to is at least 0 (or not a number, if the player's position or
    the setting is not); a rewind longer than the time played lands on 0.
    Without settings or without a video element nothing is sought. *)
Theorem skip_never_seeks_before_zero (settings : option Transport.Settings)
  (position : Transport.CurrentPosition) (sc : Transport.Screen)
  (seconds : float) :
  (In (Ui.provider (Provider.videoRef_seek seconds))
      (Handler.trace (Transport.handleSkipBackward settings position sc))
   \/ In (Ui.provider (Provider.videoRef_seek seconds))
         (Handler.trace (Transport.handleSkipForward settings position sc)) ->
   PrimFloat.is_nan seconds = false ->
   PrimFloat.leb 0 seconds = true)
  /\ (forall s curr,
        settings = Some s -> position = Transport.Resolved curr ->
        Provider.videoRef (Player.provider (Transport.app sc)) = true ->
        PrimFloat.is_nan (curr - Transport.rewindSkipTime s) = false ->
        PrimFloat.ltb 0 (curr - Transport.rewindSkipTime s) = false ->
        Handler.trace (Transport.handleSkipBackward settings position sc)
        = [Ui.provider (Provider.videoRef_seek 0)])
  /\ (settings = None
      \/ Provider.videoRef (Player.provider (Transport.app sc)) = false ->
      Transport.handleSkipBackward settings position sc = (tt, sc, [])
      /\ Transport.handleSkipForward settings position sc = (tt, sc, [])).
Proof.
  unfold Transport.handleSkipBackward, Transport.handleSkipForward.
  repeat split.
  - destruct settings as [s|]; [|now intros [[]|[]]].
    unfold Handler.bind, Handler.get, Handler.trace. simpl.
    destruct (Provider.videoRef _); [|now intros [[]|[]]].
    destruct position as [curr|]; simpl.
    + intros [[[= <-]|[]]|[[= <-]|[]]] Hn; now apply Math_max_zero.
    + intros [[H|[]]|[H|[]]]; discriminate.
  - intros s curr -> -> Hv Hn Hl.
    unfold Handler.bind, Handler.get, Handler.trace. simpl. rewrite Hv. simpl.
    assert (E : Transport.Math_max 0 (curr - Transport.rewindSkipTime s) = 0%float).
    { apply Math_max_zero; [|exact Hl].
      unfold Transport.Math_max. change (PrimFloat.is_nan 0) with false.
      simpl orb. rewrite Hn, Hl.
      now destruct (PrimFloat.ltb (curr - Transport.rewindSkipTime s) 0). }
    now rewrite E.
  - destruct H as [-> | H]; [reflexivity|].
    destruct settings; [|reflexivity].
    unfold Handler.bind, Handler.get. simpl. now rewrite H.
  - destruct H as [-> | H]; [reflexivity|].
    destruct settings; [|reflexivity].
    unfold Handler.bind, Handler.get. simpl. now rewrite H.
Qed.

(** *** Leaving the item *)

Section RoutesMore.

Variable itemRouter : BaseItemDto.t -> string -> string.

(** Going to the previous or next item stops the current one first: the
    stop is reported with the current item's id, and only then is the route
    pushed.  With no adjacent item, or no route segment to come from (or an
    empty one), the button does nothing at all. *)
Theorem go_to_item_stops_first (c : Provider.Closure)
  (adjacent : option BaseItemDto.t) (from : option string)
  (sc : Transport.Screen) :
  let r := Transport.handleGoToItem itemRouter c adjacent from sc in
  (forall it segment,
     adjacent = Some it -> JS.truthy from = Some segment ->
     Handler.trace r
     = [Ui.provider
          (Provider.reportPlaybackStopped
             {| Provider.StopReport.api := Provider.api c;
                Provider.StopReport.itemId :=
                  Provider.item_Id
                    (Provider.State.currentlyPlaying (Provider.rendered c));
                Provider.StopReport.sessionId :=
                  Provider.session_PlaySessionId
                    (Provider.State.session (Provider.rendered c));
                Provider.StopReport.positionTicks :=
                  JS.orNumber
                    (Provider.State.progressTicks (Provider.rendered c)) 0 |});
        Ui.router_push (itemRouter it segment)]
     /\ Provider.State.currentlyPlaying
          (Provider.state
             (Player.provider (Transport.app (Handler.store r)))) = None)
  /\ (adjacent = None \/ JS.truthy from = None -> r = (tt, sc, [])).
Proof.
  intros r. subst r. unfold Transport.handleGoToItem. split.
  - intros it segment -> ->. split; reflexivity.
  - intros [-> | ->]; [reflexivity | now destruct adjacent].
Qed.

End RoutesMore.

(** *** The handler in force *)

Lemma sameString_eq (x y : option string) : Provider.sameString x y = true -> x = y.
Proof.
  destruct x as [a|], y as [b|]; simpl; try discriminate; [|reflexivity].
  intros H. apply String.eqb_eq in H. now subst.
Qed.

Lemma sameNumber_eq (x y : option float) : Provider.sameNumber x y = true -> x = y.
Proof.
  destruct x as [a|], y as [b|]; simpl; try discriminate; [|reflexivity].
  intros H. apply FloatAxioms.Leibniz.eqb_spec in H. now subst.
Qed.

Lemma sameApi_eq (x y : option Api.t) : Provider.sameApi x y = true -> x = y.
Proof.
  destruct x as [[b1 t1 d1]|], y as [[b2 t2 d2]|]; simpl; try discriminate;
    [|reflexivity].
  intros H. apply andb_true_iff in H as [H Hd].
  apply andb_true_iff in H as [Hb Ht].
  apply String.eqb_eq in Hb, Ht, Hd. now subst.
Qed.

(** The handler in force always has the callbacks of the current render:
    the effect's dependencies see to it. *)
Lemma onmessage_after_render_upToDate (sameObjects : bool)
  (installed previous current : Provider.Closure) :
  Provider.upToDate installed previous ->
  Provider.upToDate
    (Provider.onmessage_after_render sameObjects installed previous current)
    current.
Proof.
  intros (Ha & Hi & Hs & Hp). unfold Provider.onmessage_after_render.
  destruct (sameObjects && Provider.sameCallbacks previous current) eqn:E;
    [|repeat split].
  apply andb_true_iff in E as [_ E]. unfold Provider.sameCallbacks in E.
  apply andb_true_iff in E as [E Ep]. apply andb_true_iff in E as [E Es].
  apply andb_true_iff in E as [Ea Ei].
  apply sameApi_eq in Ea. apply sameString_eq in Ei, Es.
  apply sameNumber_eq in Ep.
  repeat split; congruence.
Qed.

(** The remote commands against the buttons.  The socket handler in force
    has the [stopPlayback], [playVideo] and [pauseVideo] of the current
    render, but its [isPlaying] is that of the render which installed it.
    So a remote "Stop" does what the close button does, except that the
    button goes back in any case and the remote command only if the router
    can.  A remote "PlayPause" does what the play/pause button does as long
    as [isPlaying] is what it was when the handler was installed; once it
    differs, the remote command does the opposite of the button: it makes
    the call that [isPlaying] already reflects, and leaves the flag as it
    is where the button flips it. *)
Theorem remote_commands_against_the_buttons
  (installed current : Provider.Closure) (sc : Transport.Screen)
  (playPause stop : Provider.Message) :
  Provider.Command playPause = Some "PlayPause" ->
  Provider.Command stop = Some "Stop" ->
  Provider.upToDate installed current ->
  let remote :=
    Transport.usePlayback (Provider.onmessage installed playPause) sc in
  let button := Transport.inApp (Player.handlePlayPause current) sc in
  let isPlaying {A : Type} (r : A * Transport.Screen * list Ui.Effect) :=
    Provider.State.isPlaying
      (Provider.state (Player.provider (Transport.app (Handler.store r)))) in
  let shown := Provider.State.isPlaying (Provider.rendered current) in
  Handler.store (Transport.usePlayback (Provider.onmessage installed stop) sc)
  = Handler.store (Transport.exit_onPress current sc)
  /\ Handler.trace (Transport.exit_onPress current sc)
     = (removelast (Handler.trace (Transport.exit_onPress current sc))
        ++ [Ui.provider Provider.router_back])%list
  /\ Handler.trace
       (Transport.usePlayback (Provider.onmessage installed stop) sc)
     = (removelast (Handler.trace (Transport.exit_onPress current sc))
        ++ (if Provider.router_canGoBack
                 (Player.provider (Transport.app sc))
            then [Ui.provider Provider.router_back] else []))%list
  /\ (Provider.State.isPlaying (Provider.rendered installed) = shown ->
      remote = button)
  /\ (Provider.State.isPlaying (Provider.rendered installed) = negb shown ->
      remote
      = Transport.usePlayback
          (if shown then Provider.playVideo current true
           else Provider.pauseVideo current true) sc
      /\ isPlaying remote = shown
      /\ isPlaying button = negb shown).
Proof.
  intros Hp Hs (Ha & Hi & Hse & Hpt) remote button isPlaying shown.
  subst remote button isPlaying shown.
  destruct sc as [[[s pv vr p1 p2 back info caps] pl] ctl safe].
  unfold Provider.onmessage, Transport.exit_onPress, Transport.usePlayback,
    Transport.inApp, Player.handlePlayPause, Ui.fromProvider,
    Provider.stopPlayback, Provider.setCurrentlyPlayingState,
    Provider.playVideo, Provider.pauseVideo.
  rewrite Hp, Hs, Ha, Hi, Hse, Hpt. simpl JS.strictEq. cbv iota.
  split; [|split; [|split; [|split]]].
  - run_handler. now destruct vr, back.
  - run_handler. now destruct vr.
  - run_handler. now destruct vr, back.
  - intros ->.
    now destruct (Provider.State.isPlaying (Provider.rendered current)).
  - intros ->.
    destruct (Provider.State.isPlaying (Provider.rendered current));
      run_handler; destruct vr; repeat split.
Qed.

(** *** A playback error *)

(** A playback error is logged and shown, and parks [setIsPlaying(false)]:
    nothing of the provider's state changes at once, the video element is
    not paused and the server is not told.  When the debounce timer runs out
    the flag goes to false, silently, and the item stays; a [playVideo] made
    while the call is parked sets the flag to true and is then overridden by
    the timer. *)
Theorem video_error_flag_overrides_play (c : Provider.Closure) (e : string)
  (triggerRef : bool) (sc : Transport.Screen) :
  let failed := Transport.handleVideoError e sc in
  let pressed :=
    Transport.usePlayback (Provider.playVideo c triggerRef)
      (Handler.store failed) in
  let fired :=
    Transport.usePlayback Provider.setIsPlaying_timeout
      (Handler.store pressed) in
  let provider_state (s : Transport.Screen) :=
    Provider.state (Player.provider (Transport.app s)) in
  Handler.trace failed
  = [Ui.writeToLog "ERROR" ("Video playback error: " ++ e);
     Ui.provider
       (Provider.Alert_alert (Some "Error")
          (Some "Cannot play this video file."))]
  /\ provider_state (Handler.store failed) = provider_state sc
  /\ Provider.State.isPlaying (provider_state (Handler.store pressed)) = true
  /\ Handler.trace fired = []
  /\ provider_state (Handler.store fired)
     = Provider.State.set_isPlaying false (provider_state sc)
  /\ Handler.store
       (Transport.usePlayback Provider.setIsPlaying_timeout
          (Handler.store failed))
     = Handler.store fired.
Proof.
  destruct sc as [[[s pv vr p1 p2 back info caps] pl] ctl safe].
  unfold Transport.handleVideoError, Transport.usePlayback, Transport.inApp,
    Ui.fromProvider, Provider.setIsPlaying, Provider.setIsPlaying_timeout.
  run_handler.
  destruct triggerRef, vr; repeat split.
Qed.

(* ===================================================================== *)
(** ** The further properties on concrete runs *)
(* ===================================================================== *)

Lemma getStreamUrl_url_under_base_path_witness :
  exists a path,
    StreamUrl.api (Platform.call Platform.video1 Platform.session0 None)
    = Some a
    /\ "http://srv/videos/1/master.m3u8" = Api.basePath a ++ path
    /\ path <> "".
Proof.
  exact (getStreamUrl_url_under_base_path Platform.ios Platform.getAuthHeaders
           Platform.URLSearchParams_toString
           (Platform.call Platform.video1 Platform.session0 None)
           (StreamUrl.Resolved (Some [Platform.transcodeOnly]))
           "http://srv/videos/1/master.m3u8" eq_refl).
Defined.

Lemma getStreamUrl_forced_video_witness :
  StreamUrl.completion
    (Platform.getStreamUrl
       (Platform.call Platform.video1 Platform.session0 (Some true))
       (StreamUrl.Resolved (Some [Platform.transcodeOnly])))
  = StreamUrl.Return
      (Some ("http://srv/Videos/1/stream.mp4?playSessionId=sess"
             ++ "&mediaSourceId=src1&static=true&subtitleStreamIndex=undefined"
             ++ "&audioStreamIndex=0&deviceId=dev&api_key=tok")).
Proof.
  exact (getStreamUrl_forced_video Platform.ios Platform.getAuthHeaders
           Platform.URLSearchParams_toString
           (Platform.call Platform.video1 Platform.session0 (Some true))
           Platform.api0 "user" Platform.video1 "1" "src1"
           [Platform.transcodeOnly] Platform.transcodeOnly "sess"
           (pastGuard_call Platform.video1 Platform.session0 (Some true) "1"
              eq_refl)
           eq_refl eq_refl eq_refl eq_refl).
Defined.

Lemma getStreamUrl_universal_audio_witness :
  StreamUrl.completion
    (Platform.getStreamUrl
       (Platform.call Platform.audio1 Platform.session0 (Some true))
       (StreamUrl.Resolved (Some [Platform.transcodeOnly])))
  = StreamUrl.Return
      (Some ("http://srv/Audio/1/universal?UserId=user&DeviceId=dev"
             ++ "&MaxStreamingBitrate=140000000&Container=opus%2Cwebm%7Copus"
             ++ "%2Cmp3%2Caac%2Cm4a%7Caac%2Cm4b%7Caac%2Cflac%2Cwebma%2Cwebm"
             ++ "%7Cwebma%2Cwav%2Cogg&TranscodingContainer=mp4"
             ++ "&TranscodingProtocol=hls&AudioCodec=aac&api_key=tok"
             ++ "&PlaySessionId=sess&StartTimeTicks=0&EnableRedirection=true"
             ++ "&EnableRemoteMedia=false")).
Proof.
  exact (getStreamUrl_universal_audio Platform.ios Platform.getAuthHeaders
           Platform.URLSearchParams_toString
           (Platform.call Platform.audio1 Platform.session0 (Some true))
           Platform.api0 "user" Platform.audio1 "1" "src1"
           [Platform.transcodeOnly] Platform.transcodeOnly "sess"
           (pastGuard_call Platform.audio1 Platform.session0 (Some true) "1"
              eq_refl)
           eq_refl eq_refl eq_refl (or_intror eq_refl)).
Defined.

Lemma getStreamUrl_first_matching_source_witness :
  Platform.getStreamUrl
    (Platform.call Platform.video1 Platform.session0 None)
    (StreamUrl.Resolved
       (Some [MediaSourceInfo.mk (Some "src0") (Some true) None;
              Platform.transcodeOnly; Platform.directOnly]))
  = Platform.getStreamUrl
      (Platform.call Platform.video1 Platform.session0 None)
      (StreamUrl.Resolved (Some [Platform.transcodeOnly])).
Proof.
  apply (getStreamUrl_first_matching_source Platform.ios
           Platform.getAuthHeaders Platform.URLSearchParams_toString
           (Platform.call Platform.video1 Platform.session0 None) "src1"
           [MediaSourceInfo.mk (Some "src0") (Some true) None]
           [Platform.directOnly] Platform.transcodeOnly).
  - reflexivity.
  - intros source [<-|[]]. discriminate.
  - reflexivity.
Defined.

Lemma socket_url_of_https_server_witness :
  Socket.connect (Some "phone")
    (Some (Api.mk "https://media.example.org" "tok" "dev"))
  = Some "wss://media.example.org/socket?api_key=tok&deviceId=phone".
Proof.
  apply (socket_url_of_https_server
           (Api.mk "https://media.example.org" "tok" "dev")
           "phone" "media.example.org");
    [reflexivity | reflexivity | discriminate | discriminate].
Defined.

Lemma socket_url_of_http_server_witness :
  Socket.connect (Some "phone")
    (Some (Api.mk "http://192.168.1.10:8096" "tok" "dev"))
  = Some "ws://192.168.1.10:8096/socket?api_key=tok&deviceId=phone".
Proof.
  apply (socket_url_of_http_server
           (Api.mk "http://192.168.1.10:8096" "tok" "dev")
           "phone" "192.168.1.10:8096");
    [reflexivity | reflexivity | discriminate | discriminate].
Defined.

Lemma socket_wss_for_https_anywhere_witness :
  Socket.url (Api.mk "http://https-proxy.lan" "tok" "dev") "phone"
  = "wss://https-proxy.lan/socket?api_key=tok&deviceId=phone"
  /\ prefix "wss://"
       (Socket.url (Api.mk "http://https-proxy.lan" "tok" "dev") "phone")
     = true.
Proof.
  split; [reflexivity|].
  apply (socket_wss_for_https_anywhere
           (Api.mk "http://https-proxy.lan" "tok" "dev") "phone"
           "https-proxy.lan"); reflexivity.
Defined.

Lemma keep_alive_stops_with_the_socket_witness :
  snd (Socket.run
         (fst (Socket.run (Socket.opening false)
                 ([Socket.Opened; Socket.Tick] ++ [Socket.Closed])))
         [Socket.Tick; Socket.Opened; Socket.Tick])
  = [].
Proof.
  exact (proj2 (keep_alive_stops_with_the_socket false 2
                  [Socket.Opened; Socket.Tick]
                  [Socket.Tick; Socket.Opened; Socket.Tick] Socket.Closed)
           (or_introl eq_refl)).
Defined.

Lemma isConnected_survives_close_witness :
  Socket.isConnected
    (fst (Socket.run (Socket.opening false)
            [Socket.Opened; Socket.Tick; Socket.Closed; Socket.TornDown]))
  = true.
Proof.
  apply (isConnected_survives_close false
           [Socket.Tick; Socket.Closed; Socket.TornDown]).
  intros [H|[H|[H|[]]]]; discriminate.
Defined.

Lemma unmute_sets_20_in_every_reachable_world_witness :
  let w0 :=
    Provider.mkWorld Provider.State.initial None false None None true
      (fun _ _ => Some Platform.session0) true in
  let c := Platform.closure w0 in
  let w1 := Handler.store (Ui.handle c (Ui.SetVolume 50) w0) in
  let w2 := Handler.store (Ui.handle c (Ui.Message (Platform.command "Mute")) w1) in
  Provider.State.volume (Provider.state w1) = Some 50%float
  /\ Provider.State.volume
       (Provider.state
          (Handler.store
             (Provider.onmessage c (Platform.command "Unmute") w2)))
     = Some 20%float.
Proof.
  split; [reflexivity|].
  refine (proj2 (unmute_sets_20_in_every_reachable_world _ _
                   (Platform.command "Unmute") _ eq_refl)).
  apply Ui.reach_event, Ui.reach_event, Ui.reach_mounted.
  repeat split.
Defined.

Lemma start_report_carries_stored_position_witness :
  let stopped :=
    Handler.store
      (Provider.stopPlayback (Platform.closure Platform.playing)
         Platform.playing) in
  let next :=
    Provider.mkCurrentlyPlaying "http://srv/next"
      (BaseItemDto.mk (Some "2") (Some "Video") (Some 36000000000%float)
         (Some 18000000000%float)) in
  let started :=
    Handler.store
      (Provider.setCurrentlyPlayingState (Platform.closure stopped)
         (Some next) stopped) in
  Handler.trace
    (Transport.currentlyPlaying_effect (Platform.closure started)
       (Transport.mkScreen
          (Player.mkApp started (Player.mkState false 0 0 0 true))
          false false))
  = [Ui.provider Provider.videoRef_resume;
     Ui.provider
       (Provider.reportPlaybackProgress
          (Provider.ProgressReport.mk (Some Platform.api0) (Some "2")
             900000000 (Some "sess") false))].
Proof.
  exact (proj1 (start_report_carries_stored_position
                  (Platform.closure
                     (Handler.store
                        (Provider.stopPlayback
                           (Platform.closure Platform.playing)
                           Platform.playing)))
                  (Provider.mkCurrentlyPlaying "http://srv/next"
                     (BaseItemDto.mk (Some "2") (Some "Video")
                        (Some 36000000000%float) (Some 18000000000%float)))
                  (Handler.store
                     (Provider.stopPlayback
                        (Platform.closure Platform.playing)
                        Platform.playing))
                  "2" "user" Platform.api0 Platform.session0
                  (Player.mkState false 0 0 0 true) false false
                  eq_refl eq_refl eq_refl eq_refl eq_refl eq_refl)).
Defined.

Lemma progress_events_collapse_witness :
  let a := Player.mkApp Platform.playing (Player.mkState false 0 0 0 true) in
  let events :=
    Handler.bind
      (Player.handleVideoProgress (fun s => (s * 10000000)%float)
         (Provider.mkOnProgressData 91 120 120))
      (fun _ =>
         Player.handleVideoProgress (fun s => (s * 10000000)%float)
           (Provider.mkOnProgressData 91.5 120 120)) a in
  Handler.trace events = []
  /\ Handler.trace
       (Provider.onProgress_timeout (Platform.closure Platform.playing)
          (Player.provider (Handler.store events)))
     = [Provider.reportPlaybackProgress
          (Provider.ProgressReport.mk (Some Platform.api0) (Some "1")
             915000000 (Some "sess") false)].
Proof.
  split; [reflexivity|].
  refine (eq_trans
            (proj1 (proj2 (proj2 (proj2
               (progress_events_collapse (fun s => (s * 10000000)%float)
                  (Platform.closure Platform.playing)
                  (Provider.mkOnProgressData 91 120 120)
                  (Provider.mkOnProgressData 91.5 120 120)
                  (Player.mkApp Platform.playing
                     (Player.mkState false 0 0 0 true))
                  eq_refl))))) _).
  reflexivity.
Defined.

Lemma skip_never_seeks_before_zero_witness :
  Handler.trace
    (Transport.handleSkipBackward (Some (Transport.mkSettings 10 30))
       (Transport.Resolved 4)
       (Transport.mkScreen
          (Player.mkApp Platform.playing (Player.mkState false 0 0 0 false))
          true false))
  = [Ui.provider (Provider.videoRef_seek 0)]
  /\ PrimFloat.leb 0 0 = true.
Proof.
  split; [reflexivity|].
  apply (proj1 (skip_never_seeks_before_zero
                  (Some (Transport.mkSettings 10 30)) (Transport.Resolved 4)
                  (Transport.mkScreen
                     (Player.mkApp Platform.playing
                        (Player.mkState false 0 0 0 false))
                     true false)
                  0%float)).
  - left. left. reflexivity.
  - reflexivity.
Defined.

Lemma go_to_item_stops_first_witness :
  Handler.trace
    (Transport.handleGoToNextItem
       (fun it segment =>
          "/(auth)/(tabs)/" ++ segment ++ "/items/"
            ++ JS.tplString (BaseItemDto.Id it))
       (Platform.closure Platform.playing)
       (Some (BaseItemDto.mk (Some "2") (Some "Video") None None))
       (Some "home")
       (Transport.mkScreen
          (Player.mkApp Platform.playing (Player.mkState false 0 0 0 false))
          true false))
  = [Ui.provider
       (Provider.reportPlaybackStopped
          (Provider.StopReport.mk (Some Platform.api0) (Some "1")
             (Some "sess") 900000000));
     Ui.router_push "/(auth)/(tabs)/home/items/2"].
Proof.
  exact (proj1 (proj1 (go_to_item_stops_first
                         (fun it segment =>
                            "/(auth)/(tabs)/" ++ segment ++ "/items/"
                              ++ JS.tplString (BaseItemDto.Id it))
                         (Platform.closure Platform.playing)
                         (Some (BaseItemDto.mk (Some "2") (Some "Video")
                                  None None))
                         (Some "home")
                         (Transport.mkScreen
                            (Player.mkApp Platform.playing
                               (Player.mkState false 0 0 0 false))
                            true false))
                  (BaseItemDto.mk (Some "2") (Some "Video") None None)
                  "home" eq_refl eq_refl)).
Defined.

Lemma remote_commands_against_the_buttons_witness :
  let installed := Platform.closure Platform.playing in
  let paused :=
    Handler.store
      (Provider.onmessage installed (Platform.command "PlayPause")
         Platform.playing) in
  let current := Platform.closure paused in
  let sc :=
    Transport.mkScreen
      (Player.mkApp paused (Player.mkState false 0 0 0 false)) true false in
  let isPlaying {A : Type} (r : A * Transport.Screen * list Ui.Effect) :=
    Provider.State.isPlaying
      (Provider.state (Player.provider (Transport.app (Handler.store r)))) in
  Provider.onmessage_after_render true installed installed current = installed
  /\ Provider.State.isPlaying (Provider.rendered current) = false
  /\ isPlaying
       (Transport.usePlayback
          (Provider.onmessage installed (Platform.command "PlayPause")) sc)
     = false
  /\ isPlaying (Transport.inApp (Player.handlePlayPause current) sc) = true.
Proof.
  intros installed paused current sc isPlaying.
  split; [reflexivity|]. split; [reflexivity|].
  assert (U : Provider.upToDate installed current) by (repeat split).
  destruct (remote_commands_against_the_buttons installed current sc
              (Platform.command "PlayPause") (Platform.command "Stop")
              eq_refl eq_refl U)
    as (_ & _ & _ & _ & Hstale).
  destruct (Hstale eq_refl) as (_ & Hremote & Hbutton).
  split; [exact Hremote | exact Hbutton].
Defined.
